(** * stackyter: a shallow embedding of [stackyter.py]

    The script parses its command line, overlays a YAML profile on the
    options left at their default, validates the result, assembles a
    heredoc SSH script line by line and hands it to a shell.

    Python values are a small inductive type; the argparse [Namespace] is a
    finite map from attribute names to values; exceptions are an error
    monad; [print] and [subprocess.call] are recorded in an explicit
    state.  The environment, the file system, the YAML parser, the random
    generator and the spawned shell are fields of a [world] record. *)

From Stdlib Require Import ZArith String Ascii List DecimalString Lia.
From stdpp Require Import base gmap strings list fin_maps.

Open Scope string_scope.
Set Warnings "-register-all".

(* ===================================================================== *)
(** ** Python values and exceptions *)
(* ===================================================================== *)

(** The values the argument parser and the YAML loader hand to the script.
    A mapping keeps its insertion order, as a Python [dict] does, and its
    keys are strings (profile and option names).  The other kinds of object
    a YAML document can denote (floats, byte strings, dates, sets) are not
    modelled: no statement below speaks of them. *)
Inductive value : Type :=
| VNone
| VBool (b : bool)
| VInt (z : Z)
| VStr (s : string)
| VList (l : list value)
| VDict (d : list (string * value)).

(** The exceptions the script can end with.  [FileNotFoundError] and
    [IsADirectoryError] are [IOError] ([OSError]) in Python 3. *)
Inductive exn : Type :=
| IOError (msg : string)
| ValueError (msg : string)
| TypeError
| AttributeError
| KeyError
| IndexError
| YAMLError
| SystemExit (code : Z).

Inductive result (A : Type) : Type :=
| Ok (a : A)
| Raise (e : exn).
Arguments Ok {A} a.
Arguments Raise {A} e.

Definition rbind {A B : Type} (r : result A) (k : A -> result B) : result B :=
  match r with
  | Ok a => k a
  | Raise e => Raise e
  end.

Notation "'let?' x ':=' e 'in' k" := (rbind e (fun x => k))
  (at level 10, x name, e at level 100, k at level 200).

(** [x is None] *)
Definition is_none (v : value) : bool :=
  match v with VNone => true | _ => false end.

(** Truth value of an object, as tested by [if x:]. *)
Definition py_truthy (v : value) : bool :=
  match v with
  | VNone => false
  | VBool b => b
  | VInt z => negb (z =? 0)%Z
  | VStr s => negb (String.eqb s "")
  | VList l => match l with [] => false | _ => true end
  | VDict d => match d with [] => false | _ => true end
  end.

(** First binding of a key in a mapping. *)
Fixpoint dict_get (d : list (string * value)) (k : string) : option value :=
  match d with
  | [] => None
  | (k', v) :: rest => if String.eqb k' k then Some v else dict_get rest k
  end.

Definition dict_has (d : list (string * value)) (k : string) : bool :=
  match dict_get d k with Some _ => true | None => false end.

(** [a == b].  Booleans compare as the integers 0 and 1; lists compare
    element-wise; mappings compare regardless of order. *)
Fixpoint py_eq (a b : value) {struct a} : bool :=
  match a, b with
  | VNone, VNone => true
  | VBool x, VBool y => Bool.eqb x y
  | VBool x, VInt y => (Z.b2z x =? y)%Z
  | VInt x, VBool y => (x =? Z.b2z y)%Z
  | VInt x, VInt y => (x =? y)%Z
  | VStr x, VStr y => String.eqb x y
  | VList xs, VList ys =>
      (fix all2 (xs ys : list value) {struct xs} : bool :=
         match xs, ys with
         | [], [] => true
         | x :: xs', y :: ys' => py_eq x y && all2 xs' ys'
         | _, _ => false
         end) xs ys
  | VDict xs, VDict ys =>
      (length xs =? length ys)%nat &&
      (fix sub (xs : list (string * value)) {struct xs} : bool :=
         match xs with
         | [] => true
         | (k, x) :: xs' =>
             match dict_get ys k with
             | Some y => py_eq x y && sub xs'
             | None => false
             end
         end) xs
  | _, _ => false
  end.

(** Only immutable objects can be looked up in a mapping. *)
Definition hashable (v : value) : bool :=
  match v with VList _ | VDict _ => false | _ => true end.

(** [needle in haystack] for two strings. *)
Fixpoint is_substring (needle hay : string) : bool :=
  String.prefix needle hay ||
  match hay with
  | EmptyString => false
  | String _ rest => is_substring needle rest
  end.

(** [x in c] *)
Definition py_in (x c : value) : result bool :=
  match c with
  | VDict d =>
      if hashable x
      then Ok (match x with VStr k => dict_has d k | _ => false end)
      else Raise TypeError
  | VList l => Ok (existsb (py_eq x) l)
  | VStr s =>
      match x with
      | VStr t => Ok (is_substring t s)
      | _ => Raise TypeError
      end
  | _ => Raise TypeError
  end.

(** [len(c)] *)
Definition py_len (c : value) : result nat :=
  match c with
  | VDict d => Ok (length d)
  | VList l => Ok (length l)
  | VStr s => Ok (String.length s)
  | _ => Raise TypeError
  end.

(** [l[i]] on a sequence: a negative index counts from the end. *)
Definition seq_index {A : Type} (l : list A) (i : Z) : result A :=
  let n := Z.of_nat (length l) in
  let j := if (i <? 0)%Z then (i + n)%Z else i in
  if (0 <=? j)%Z && (j <? n)%Z
  then match nth_error l (Z.to_nat j) with
       | Some x => Ok x
       | None => Raise IndexError
       end
  else Raise IndexError.

Definition chars_of (s : string) : list value :=
  map (fun c => VStr (String c EmptyString)) (list_ascii_of_string s).

(** [c[k]] *)
Definition py_getitem (c k : value) : result value :=
  match c with
  | VDict d =>
      if hashable k
      then match k with
           | VStr s => match dict_get d s with
                       | Some v => Ok v
                       | None => Raise KeyError
                       end
           | _ => Raise KeyError
           end
      else Raise TypeError
  | VList l =>
      match k with
      | VInt i => seq_index l i
      | VBool b => seq_index l (Z.b2z b)
      | _ => Raise TypeError
      end
  | VStr s =>
      match k with
      | VInt i => seq_index (chars_of s) i
      | VBool b => seq_index (chars_of s) (Z.b2z b)
      | _ => Raise TypeError
      end
  | _ => Raise TypeError
  end.

(** [list(c)]: the keys of a mapping, the items of a list, the characters
    of a string. *)
Definition py_list (c : value) : result (list value) :=
  match c with
  | VDict d => Ok (map (fun kv => VStr (fst kv)) d)
  | VList l => Ok l
  | VStr s => Ok (chars_of s)
  | _ => Raise TypeError
  end.

(** Decimal rendering of an integer, as [str(n)] and ["{}".format(n)]. *)
Definition str_of_Z (z : Z) : string := NilZero.string_of_int (Z.to_int z).

(* ===================================================================== *)
(** ** String methods *)
(* ===================================================================== *)

(** [s.replace(old, new)] for a non-empty [old], as in both calls of the
    script: occurrences are replaced left to right without overlap.
    [skip] counts the characters of a matched occurrence still to drop. *)
Fixpoint replace_from (old new : string) (skip : nat) (s : string) : string :=
  match s with
  | EmptyString => EmptyString
  | String c rest =>
      match skip with
      | S k => replace_from old new k rest
      | O =>
          if String.prefix old s
          then new +:+ replace_from old new (String.length old - 1) rest
          else String c (replace_from old new 0 rest)
      end
  end.

Definition str_replace (old new s : string) : string := replace_from old new 0 s.

(** [s.split(sep)] for a non-empty [sep]: [cur] is the field being read. *)
Fixpoint split_from (sep : string) (skip : nat) (cur s : string) : list string :=
  match s with
  | EmptyString => [cur]
  | String c rest =>
      match skip with
      | S k => split_from sep k cur rest
      | O =>
          if String.prefix sep s
          then cur :: split_from sep (String.length sep - 1) EmptyString rest
          else split_from sep 0 (cur +:+ String c EmptyString) rest
      end
  end.

Definition str_split (sep s : string) : list string := split_from sep 0 EmptyString s.

(** ["\n".join(lines)] *)
Fixpoint str_join (sep : string) (l : list string) : string :=
  match l with
  | [] => EmptyString
  | [x] => x
  | x :: rest => x +:+ sep +:+ str_join sep rest
  end.

(* ===================================================================== *)
(** ** The world outside the script, and its effects on it *)
(* ===================================================================== *)

Inductive fs_entry : Type :=
| RegularFile (content : string)
| Directory.

(** Everything the script asks of its surroundings.  [str_container] is
    Python's rendering of a list or mapping by [str]; [entropy] is the raw
    draw behind [np.random.randint]; [shell_status] is the exit status of
    the shell spawned on a command; [spawn_error] is the [OSError] with
    which the operating system refuses to start a shell on a command, if
    it does. *)
Record world : Type := {
  getenv : string -> option string;
  fs : string -> option fs_entry;
  yaml_load : string -> result value;
  str_container : value -> string;
  entropy : Z;
  shell_status : string -> Z;
  spawn_error : string -> option exn
}.

(** What a run leaves behind: the lines printed and the commands handed to
    [subprocess.call], oldest first. *)
Record console : Type := {
  stdout : list string;
  spawned : list string
}.

Definition console0 : console := {| stdout := []; spawned := [] |}.

(** Computations that print, spawn and may raise. *)
Definition M (A : Type) : Type := console -> result A * console.

Definition ret {A : Type} (a : A) : M A := fun st => (Ok a, st).

Definition raise {A : Type} (e : exn) : M A := fun st => (Raise e, st).

Definition lift {A : Type} (r : result A) : M A := fun st => (r, st).

Definition bind {A B : Type} (m : M A) (k : A -> M B) : M B :=
  fun st =>
    match m st with
    | (Ok a, st') => k a st'
    | (Raise e, st') => (Raise e, st')
    end.

Notation "'let!' x ':=' e 'in' k" := (bind e (fun x => k))
  (at level 10, x name, e at level 100, k at level 200).
Notation "'run!' e 'in' k" := (bind e (fun _ => k))
  (at level 10, e at level 100, k at level 200).

Definition print (line : string) : M unit :=
  fun st => (Ok tt, {| stdout := stdout st ++ [line]; spawned := spawned st |}).

(** A NUL character somewhere in a string. *)
Fixpoint has_nul (s : string) : bool :=
  match s with
  | EmptyString => false
  | String c rest => Ascii.eqb c "000"%char || has_nul rest
  end.

(** [subprocess.call(cmd, stderr=subprocess.STDOUT, shell=True)]: a command
    with an embedded NUL is refused with a [ValueError] and a shell the
    system cannot start is an [OSError], in both cases before any process
    exists; otherwise the shell runs and its exit status is returned.  An
    interrupt of the wait is not modelled. *)
Definition subprocess_call (w : world) (cmd : string) : M Z :=
  if has_nul cmd then raise (ValueError "embedded null byte")
  else
    match spawn_error w cmd with
    | Some e => raise e
    | None =>
        fun st => (Ok (shell_status w cmd),
                   {| stdout := stdout st; spawned := spawned st ++ [cmd] |})
    end.

(** [sys.exit(code)] *)
Definition sys_exit {A : Type} (code : Z) : M A := raise (SystemExit code).

(** Exit status of the interpreter for a run of the script. *)
Definition exit_status (r : result unit) : Z :=
  match r with
  | Ok _ => 0
  | Raise (SystemExit code) => code
  | Raise _ => 1
  end.

(** [str(v)], which is also what ["{}".format(v)] inserts. *)
Definition py_str (w : world) (v : value) : string :=
  match v with
  | VNone => "None"
  | VBool true => "True"
  | VBool false => "False"
  | VInt z => str_of_Z z
  | VStr s => s
  | VList _ | VDict _ => str_container w v
  end.

(** [open(path, 'r')] followed by reading the file.  The paths of the
    script are strings; anything else is rejected. *)
Definition py_open (w : world) (path : value) : result string :=
  match path with
  | VStr p =>
      match fs w p with
      | Some (RegularFile content) => Ok content
      | Some Directory => Raise (IOError "Is a directory")
      | None => Raise (IOError "No such file or directory")
      end
  | _ => Raise TypeError
  end.

(** Attribute lookup in the module [os.path], for its path predicates.
    [exists] is true of files and directories alike. *)
Definition os_path_getattr (w : world) (name : string) : result (string -> bool) :=
  if String.eqb name "exists" then
    Ok (fun p => match fs w p with Some _ => true | None => false end)
  else if String.eqb name "isfile" then
    Ok (fun p => match fs w p with Some (RegularFile _) => true | _ => false end)
  else if String.eqb name "isdir" then
    Ok (fun p => match fs w p with Some Directory => true | _ => false end)
  else Raise AttributeError.

(** [np.random.randint(low, high)]: an integer of [low, high). *)
Definition randint (w : world) (low high : Z) : Z :=
  (low + entropy w mod (high - low))%Z.

(** ["sep".join(items)]: every item must be a string. *)
Fixpoint py_join_items (items : list value) : result (list string) :=
  match items with
  | [] => Ok []
  | VStr s :: rest => let? l := py_join_items rest in Ok (s :: l)
  | _ :: _ => Raise TypeError
  end.

Definition py_join (sep : string) (items : list value) : result string :=
  let? l := py_join_items items in Ok (str_join sep l).

(* ===================================================================== *)
(** ** The argument parser *)
(* ===================================================================== *)

Inductive action : Type := Store | StoreTrue.

Record argument : Type := {
  dest : string;
  default : value;
  act : action;
  choices : option (list string)
}.

Definition add_argument (d : string) (dflt : value) (a : action)
    (c : option (list string)) : argument :=
  {| dest := d; default := dflt; act := a; choices := c |}.

(** [setup_parser]: the thirteen options, in the order they are added. *)
Definition setup_parser : list argument :=
  [ add_argument "config" VNone Store None;
    add_argument "configfile" VNone Store None;
    add_argument "host" VNone Store None;
    add_argument "username" VNone Store None;
    add_argument "workdir" VNone Store None;
    add_argument "jupyter" (VStr "notebook") Store (Some ["notebook"; "lab"]);
    add_argument "mysetup" VNone Store None;
    add_argument "runbefore" VNone Store None;
    add_argument "runafter" VNone Store None;
    add_argument "compression" (VBool false) StoreTrue None;
    add_argument "showconfig" (VBool false) StoreTrue None;
    add_argument "tensorboard" (VBool false) StoreTrue None;
    add_argument "logdir" VNone Store None ].

(** The value one option gets: its default when absent from the command
    line, [True] for a flag, the given string otherwise.  A string outside
    the allowed choices is a usage error (exit status 2). *)
Definition parse_one (a : argument) (given : option string) : result value :=
  match given with
  | None => Ok (default a)
  | Some s =>
      match act a with
      | StoreTrue => Ok (VBool true)
      | Store =>
          match choices a with
          | Some allowed =>
              if existsb (String.eqb s) allowed then Ok (VStr s)
              else Raise (SystemExit 2)
          | None => Ok (VStr s)
          end
      end
  end.

(** [parser.parse_args(...)] on a command line whose syntax argparse
    accepts.  [supplied] maps the destination of each option present on
    the command line to its argument (ignored for a flag); the result is
    the attribute dictionary of the [Namespace].  What argparse does with
    the raw argument vector (unknown options, missing arguments, [-h]) is
    not modelled. *)
Fixpoint parse_args (parser : list argument) (supplied : gmap string string)
    : result (gmap string value) :=
  match parser with
  | [] => Ok ∅
  | a :: rest =>
      let? ns := parse_args rest supplied in
      let? v := parse_one a (supplied !! dest a) in
      Ok (<[dest a := v]> ns)
  end.

(** [args.name] *)
Definition getattr (args : gmap string value) (name : string) : result value :=
  match args !! name with
  | Some v => Ok v
  | None => Raise AttributeError
  end.

(** [setattr(args, name, v)] and [args.name = v] *)
Definition setattr (args : gmap string value) (name : string) (v : value)
    : gmap string value :=
  <[name := v]> args.

(** [args.__dict__[name]] *)
Definition dict_item (args : gmap string value) (name : string) : result value :=
  match args !! name with
  | Some v => Ok v
  | None => Raise KeyError
  end.

(** [args._get_kwargs()]: the attributes with their values, each name
    once. *)
Definition get_kwargs (args : gmap string value) : list (string * value) :=
  map_to_list args.

(* ===================================================================== *)
(** ** The script *)
(* ===================================================================== *)

Definition LF : string := String "010"%char EmptyString.

(** [string_to_list]: a list or [None] is returned as it is; anything else
    is asked for its [split] method, which only a string has. *)
Definition string_to_list (a : value) : result value :=
  match a with
  | VList _ => Ok a
  | VNone => Ok a
  | VStr s => Ok (VList (map VStr (str_split "," s)))
  | _ => Raise AttributeError
  end.

(** [run.replace("$", "\$")]: only a string has the method. *)
Definition escape_run (run : value) : result value :=
  match run with
  | VStr s => Ok (VStr (str_replace "$" "\$" s))
  | _ => Raise AttributeError
  end.

(** [[run.replace("$", "\$") for run in runs]] *)
Fixpoint escape_runs (runs : list value) : result (list value) :=
  match runs with
  | [] => Ok []
  | run :: rest =>
      let? r := escape_run run in
      let? rs := escape_runs rest in
      Ok (r :: rs)
  end.

(** Lines 209-215: the hook list of one option, when it is not [None]. *)
Definition hooks_of (a : value) : result value :=
  let? l := string_to_list a in
  let? runs := py_list l in
  let? escaped := escape_runs runs in
  Ok (VList escaped).

Section Script.

Variable w : world.

(** The module constant of line 14. *)
Variable DEFAULT_CONFIG : string.

Definition finish_default_config (only_path : bool) (config : string) : M value :=
  if only_path then ret (VStr config)
  else let! content := lift (py_open w (VStr config)) in
       lift (yaml_load w content).

Definition get_default_config (only_path : bool) : M value :=
  match getenv w "STACKYTERCONFIG" with
  | Some config =>
      let! exist := lift (os_path_getattr w "exist") in
      if negb (exist config)
      then raise (IOError "$STACKYTERCONFIG is defined but the file does not exist.")
      else finish_default_config only_path config
  | None =>
      let! exists_ := lift (os_path_getattr w "exists") in
      if exists_ DEFAULT_CONFIG
      then finish_default_config only_path DEFAULT_CONFIG
      else ret VNone
  end.

Definition read_config (config key : value) : M value :=
  run! print ("INFO: Loading configuration from " +:+ py_str w config) in
  let! content := lift (py_open w config) in
  let! config := lift (yaml_load w content) in
  if negb (is_none key) then
    let! present := lift (py_in key config) in
    if present then
      run! print ("INFO: Using the '" +:+ py_str w key +:+ "' configuration") in
      lift (py_getitem config key)
    else
      raise (IOError ("Configuration `" +:+ py_str w key
                      +:+ "` does not exist. Check your default file."))
  else
    let! n := lift (py_len config) in
    if (1 <? n)%nat then
      let! present := lift (py_in (VStr "default_config") config) in
      if present then
        let! name := lift (py_getitem config (VStr "default_config")) in
        run! print ("INFO: Using default configuration '" +:+ py_str w name +:+ "'") in
        let! name := lift (py_getitem config (VStr "default_config")) in
        lift (py_getitem config name)
      else
        raise (IOError "You must define a 'default_config' in you configuration file.")
    else
      let! keys := lift (py_list config) in
      let! first := lift (seq_index keys 0) in
      lift (py_getitem config first).

Definition get_config (config configfile : value) : M value :=
  let! configfile :=
    (if is_none configfile then get_default_config true else ret configfile) in
  if negb (is_none config) then
    if is_none configfile then
      raise (IOError "No (default) configuration file found or given. Check the doc.")
    else read_config configfile config
  else if negb (is_none configfile) then read_config configfile VNone
  else ret config.

(** Body of the loop of lines 189-193 for one option. *)
Definition overlay_step (config : value) (default_args args : gmap string value)
    (opt : string) : result (gmap string value) :=
  let? present := py_in (VStr opt) config in
  if present then
    let? mine := dict_item args opt in
    let? dflt := dict_item default_args opt in
    if py_eq mine dflt then
      let? v := py_getitem config (VStr opt) in
      Ok (setattr args opt v)
    else Ok args
  else Ok args.

Fixpoint overlay_loop (config : value) (default_args : gmap string value)
    (kwargs : list (string * value)) (args : gmap string value)
    : result (gmap string value) :=
  match kwargs with
  | [] => Ok args
  | (opt, _) :: rest =>
      let? args := overlay_step config default_args args opt in
      overlay_loop config default_args rest args
  end.

(** Lines 188-193. *)
Definition overlay (config : value) (default_args args : gmap string value)
    : result (gmap string value) :=
  if negb (is_none config)
  then overlay_loop config default_args (get_kwargs args) args
  else Ok args.

(** Lines 195-206: host and log directory checks, [user@host]. *)
Definition validate (args : gmap string value) : result (gmap string value) :=
  let? host := getattr args "host" in
  if is_none host then Raise (ValueError "You must give a valide host name (--host)")
  else
    let? username := getattr args "username" in
    let args :=
      if negb (is_none username)
      then setattr args "host" (VStr (py_str w username +:+ "@" +:+ py_str w host))
      else args in
    let? tensorboard := getattr args "tensorboard" in
    let? logdir_checked :=
      (if py_truthy tensorboard then
         let? logdir := getattr args "logdir" in
         if is_none logdir
         then Raise (ValueError "You must provide a logdir path to TensorBoard (--logdir)")
         else Ok tt
       else Ok tt) in
    Ok args.

(** Lines 208-215: both hook options become lists of escaped commands. *)
Definition prepare_hook (name : string) (args : gmap string value)
    : result (gmap string value) :=
  let? a := getattr args name in
  if negb (is_none a)
  then let? l := hooks_of a in Ok (setattr args name l)
  else Ok args.

Definition prepare_hooks (args : gmap string value) : result (gmap string value) :=
  let? args := prepare_hook "runbefore" args in
  prepare_hook "runafter" args.

(** [cmd_list.append(line)] *)
Definition append (cmd_list : list value) (line : string) : list value :=
  (cmd_list ++ [VStr line])%list.

(** [if hooks: cmd_list.extend(hooks)] *)
Definition extend_if (cmd_list : list value) (hooks : value) : result (list value) :=
  if py_truthy hooks
  then let? items := py_list hooks in Ok (cmd_list ++ items)%list
  else Ok cmd_list.

Definition ssh_cmd_of (args : gmap string value) (port port_tensorboard : Z)
    : result string :=
  let ssh_options := "-" in
  let ssh_options := ssh_options +:+ "Y" in
  let ssh_options := ssh_options +:+ "tt" in
  let? compression := getattr args "compression" in
  let ssh_options :=
    if py_truthy compression then ssh_options +:+ "C" else ssh_options in
  let tunnel := "-L 20001:localhost:" +:+ str_of_Z port in
  let tunnel2 := "" in
  let? tensorboard := getattr args "tensorboard" in
  let tunnel2 :=
    if py_truthy tensorboard
    then "-L 20002:localhost:" +:+ str_of_Z port_tensorboard
    else tunnel2 in
  let? host := getattr args "host" in
  Ok ("ssh " +:+ ssh_options +:+ " " +:+ tunnel +:+ " " +:+ tunnel2 +:+ " "
      +:+ py_str w host +:+ " << EOF").

Definition jupyter_cmd_of (mode : value) (port : Z) : string :=
  "jupyter " +:+ py_str w mode +:+ " --no-browser --port=" +:+ str_of_Z port
  +:+ " --ip=127.0.0.1 &".

Definition tensorboard_cmd_of (logdir : value) (port_tensorboard : Z) : string :=
  "tensorboard --logdir=" +:+ py_str w logdir +:+ " --port="
  +:+ str_of_Z port_tensorboard +:+ " &".

Definition list_servers_cmd : string := "export servers=\`jupyter notebook list\`".

Definition wait_cmd_of (port : Z) : string :=
  "while [[ \$servers != *'127.0.0.1:" +:+ str_of_Z port +:+ "'* ]];"
  +:+ "do sleep 1;"
  +:+ "servers=\`jupyter notebook list\`;"
  +:+ "echo waiting...;"
  +:+ "done".

Definition server_cmd_of (port : Z) : string :=
  "export servers=\`jupyter notebook list | grep '127.0.0.1:"
  +:+ str_of_Z port +:+ "'\`".

Definition token_cmd : string :=
  "export TOKEN=\`echo \$servers | "
  +:+ "sed 's/\//\n/g' | "
  +:+ "grep token | "
  +:+ "sed 's/ /\n/g' | "
  +:+ "grep token \`".

Definition shellprint_cmd : string :=
  "printf '\n Copy/paste this URL into your browser "
  +:+ "to run the notebook localy "
  +:+ LF +:+ "\x1B[01;92m"
  +:+ "       'http://localhost:20001/\$TOKEN' "
  +:+ "\x1B[0m\n\n'".

Definition tensorboard_print_cmd : string :=
  "printf 'tensorboard"
  +:+ "\x1B[01;92m"
  +:+ "       'http://localhost:20002/'"
  +:+ "\x1B[0m\n\n'".

Definition kill_jupyter_cmd : string :=
  "kill -9 `ps | grep jupyter | awk '{print $1}'`".

Definition kill_tensorboard_cmd : string :=
  "kill -9 `ps | grep tensorboard | awk '{print $1}'`".

(** Lines 222-317: the command list, statement by statement. *)
Definition build_cmd_list (args : gmap string value) (port port_tensorboard : Z)
    : result (list value) :=
  let cmd_list := [] in
  let? ssh_cmd := ssh_cmd_of args port port_tensorboard in
  let cmd_list := append cmd_list ssh_cmd in
  let? workdir := getattr args "workdir" in
  let cmd_list :=
    if negb (is_none workdir)
    then append cmd_list ("cd " +:+ py_str w workdir)
    else cmd_list in
  let? runbefore := getattr args "runbefore" in
  let? cmd_list := extend_if cmd_list runbefore in
  let? mysetup := getattr args "mysetup" in
  let cmd_list :=
    if negb (is_none mysetup)
    then append cmd_list ("source " +:+ py_str w mysetup)
    else cmd_list in
  let? runafter := getattr args "runafter" in
  let? cmd_list := extend_if cmd_list runafter in
  let? jupyter := getattr args "jupyter" in
  let cmd_list := append cmd_list (jupyter_cmd_of jupyter port) in
  let? tensorboard := getattr args "tensorboard" in
  let? cmd_list :=
    (if py_truthy tensorboard then
       let? logdir := getattr args "logdir" in
       Ok (append cmd_list (tensorboard_cmd_of logdir port_tensorboard))
     else Ok cmd_list) in
  let cmd_list := append cmd_list list_servers_cmd in
  let cmd_list := append cmd_list (wait_cmd_of port) in
  let cmd_list := append cmd_list (server_cmd_of port) in
  let cmd_list := append cmd_list token_cmd in
  let cmd_list := append cmd_list shellprint_cmd in
  let cmd_list :=
    if py_truthy tensorboard
    then append cmd_list tensorboard_print_cmd
    else cmd_list in
  let cmd_list := append cmd_list "fg" in
  let cmd_list := append cmd_list kill_jupyter_cmd in
  let cmd_list :=
    if py_truthy tensorboard
    then append cmd_list kill_tensorboard_cmd
    else cmd_list in
  let cmd_list := append cmd_list "EOF" in
  Ok cmd_list.

(** Lines 217-220: the two ports. *)
Definition derive_ports : Z * Z :=
  let port := randint w 1025 65634 in
  let port_tensorboard := (port + 1)%Z in
  (port, port_tensorboard).

(** Lines 195-317: from the merged options to the command list. *)
Definition command_lines (args : gmap string value) : result (list value) :=
  let? args := validate args in
  let? args := prepare_hooks args in
  let '(port, port_tensorboard) := derive_ports in
  build_cmd_list args port port_tensorboard.

(** Line 319 after them: the text of the script. *)
Definition build_command (args : gmap string value) : result string :=
  let? cmd_list := command_lines args in
  py_join LF cmd_list.

(** Lines 195-322: build the command and run it; the value returned by
    [subprocess.call] is dropped. *)
Definition execute (args : gmap string value) : M unit :=
  let! cmd := lift (build_command args) in
  let! status := subprocess_call w cmd in
  ret tt.

(** Lines 174-184. *)
Definition show_config : M unit :=
  let! config := get_default_config true in
  run! (if negb (is_none config) then
          let! content := lift (py_open w config) in
          run! print ("Your default configuration file contains the following "
                      +:+ "configuration(s).") in
          print content
        else print "Error: No default configuration file found.") in
  sys_exit 0.

Definition main (supplied : gmap string string) : M unit :=
  let parser := setup_parser in
  let! args := lift (parse_args parser supplied) in
  let! default_args := lift (parse_args parser ∅) in
  let! showconfig := lift (getattr args "showconfig") in
  if py_truthy showconfig then show_config
  else
    let! config_name := lift (getattr args "config") in
    let! configfile := lift (getattr args "configfile") in
    let! config := get_config config_name configfile in
    let! args := lift (overlay config default_args args) in
    execute args.

End Script.

(** Running the file: the module constant is computed from [HOME] (line 14:
    [None + str] is a [TypeError]), then [main()] is called. *)
Definition stackyter_py (w : world) (supplied : gmap string string) : M unit :=
  match getenv w "HOME" with
  | Some home => main w (home +:+ "/.stackyter-config.yaml") supplied
  | None => raise TypeError
  end.

(** The exit status of the tool on a command line. *)
Definition tool_exit_status (w : world) (supplied : gmap string string) : Z :=
  exit_status (fst (stackyter_py w supplied console0)).

(* ===================================================================== *)
(** ** Sample worlds and command lines *)
(* ===================================================================== *)

Fixpoint assoc {A : Type} (l : list (string * A)) (k : string) : option A :=
  match l with
  | [] => None
  | (k', a) :: rest => if String.eqb k' k then Some a else assoc rest k
  end.

(** A world given by tables: environment variables, files, what the YAML
    loader returns on each file content, the random draw and the exit
    status of every spawned shell; every shell can be started. *)
Definition table_world (env : list (string * string))
    (files : list (string * fs_entry)) (yaml : list (string * value))
    (draw status : Z) : world :=
  {| getenv := assoc env;
     fs := assoc files;
     yaml_load := fun content =>
       match assoc yaml content with
       | Some v => Ok v
       | None => Raise YAMLError
       end;
     str_container := fun _ => "[...]";
     entropy := draw;
     shell_status := fun _ => status;
     spawn_error := fun _ => None |}.

Definition home_env : list (string * string) := [("HOME", "/home/ada")].

Definition home_config : string := "/home/ada/.stackyter-config.yaml".

(** Two profiles and a default. *)
Definition two_profiles : value :=
  VDict [ ("a", VDict [("host", VStr "alpha"); ("jupyter", VStr "lab")]);
          ("b", VDict [("host", VStr "beta")]);
          ("default_config", VStr "a") ].

(** A home directory without configuration file; every shell fails. *)
Definition bare_world : world := table_world home_env [] [] 7 255.

(** A home directory with the two profiles in the default file. *)
Definition profile_world : world :=
  table_world home_env [(home_config, RegularFile "profiles")]
    [("profiles", two_profiles)] 7 0.

(** [STACKYTERCONFIG] names a file that is not there. *)
Definition dangling_world : world :=
  table_world (("STACKYTERCONFIG", "/nowhere.yaml") :: home_env) [] [] 7 0.

(** [STACKYTERCONFIG] names a file that is there. *)
Definition override_world : world :=
  table_world (("STACKYTERCONFIG", "/etc/stackyter.yaml") :: home_env)
    [("/etc/stackyter.yaml", RegularFile "profiles")]
    [("profiles", two_profiles)] 7 0.

Definition cli (l : list (string * string)) : gmap string string := list_to_map l.

(** The default file holds a single profile. *)
Definition sole_profile : value := VDict [("only", VDict [("host", VStr "gamma")])].

Definition sole_world : world :=
  table_world home_env [(home_config, RegularFile "one")] [("one", sole_profile)] 7 0.

(** The default file holds an empty mapping. *)
Definition empty_world : world :=
  table_world home_env [(home_config, RegularFile "{}")] [("{}", VDict [])] 7 0.

(** The default file names a default profile it does not hold. *)
Definition broken_default : list (string * value) :=
  [ ("a", VDict [("host", VStr "alpha")]);
    ("b", VDict [("host", VStr "beta")]);
    ("default_config", VStr "c") ].

Definition broken_default_world : world :=
  table_world home_env [(home_config, RegularFile "broken")]
    [("broken", VDict broken_default)] 7 0.

(** The default file is an empty document. *)
Definition blank_world : world :=
  table_world home_env [(home_config, RegularFile "")] [("", VNone)] 7 0.

(** A profile that sets the host and the Jupyter mode. *)
Definition lab_profile : list (string * value) :=
  [("host", VStr "alpha"); ("jupyter", VStr "notebook")].

(** A command line that uses every step of the script. *)
Definition full_cli : gmap string string :=
  cli [ ("host", "h"); ("username", "u"); ("workdir", "/w");
        ("mysetup", "s.sh"); ("runbefore", "echo a,echo b");
        ("runafter", "ls $HOME"); ("tensorboard", ""); ("logdir", "/l") ].

(** The escaping the specification asks of a hook command, character by
    character: a backslash goes in front of every dollar sign and nothing
    else changes. *)
Fixpoint escape_dollars (s : string) : string :=
  match s with
  | EmptyString => EmptyString
  | String c rest =>
      if Ascii.eqb c "$"%char
      then String "\"%char (String "$"%char (escape_dollars rest))
      else String c (escape_dollars rest)
  end.

(** The values the argument parser itself produces: [None], a flag, or a
    string. *)
Definition parser_value (v : value) : Prop :=
  match v with
  | VNone | VBool _ | VStr _ => True
  | _ => False
  end.

(** The option of the parser stored under a destination. *)
Definition find_argument (parser : list argument) (opt : string) : option argument :=
  List.find (fun a => String.eqb (dest a) opt) parser.

(** The overlay rule as the specification words it, for one option: the
    profile's value when the profile has the key and the parsed value
    equals the baseline, the parsed value otherwise. *)
Definition overlaid (profile : list (string * value))
    (default_args args : gmap string value) (opt : string) : option value :=
  match args !! opt with
  | Some mine =>
      match dict_get profile opt, default_args !! opt with
      | Some v, Some dflt => if py_eq mine dflt then Some v else Some mine
      | _, _ => Some mine
      end
  | None => None
  end.

(** The commands a hook option contributes to the script: none when the
    option is [None], otherwise what lines 209-215 make of it. *)
Definition hook_commands (hooks : value) (commands : list string) : Prop :=
  if is_none hooks then commands = []
  else hooks_of hooks = Ok (VList (map VStr commands)).

(** A line present only when its option is given. *)
Definition line_unless_none (w : world) (prefix : string) (v : value) : list string :=
  if is_none v then [] else [prefix +:+ py_str w v].

(** A line present only when TensorBoard is requested. *)
Definition line_if (flag : value) (line : string) : list string :=
  if py_truthy flag then [line] else [].

(** The target of the connection: [user@host] when a user is given. *)
Definition ssh_target (w : world) (username host : value) : string :=
  if is_none username then py_str w host
  else py_str w username +:+ "@" +:+ py_str w host.

(** The first line of the script. *)
Definition ssh_header (compression tensorboard : value) (target : string)
    (port port_tensorboard : Z) : string :=
  "ssh -Ytt" +:+ (if py_truthy compression then "C" else "")
  +:+ " -L 20001:localhost:" +:+ str_of_Z port +:+ " "
  +:+ (if py_truthy tensorboard
       then "-L 20002:localhost:" +:+ str_of_Z port_tensorboard else "")
  +:+ " " +:+ target +:+ " << EOF".

(** The statements of the script in the order the specification fixes. *)
Definition script_in_order (header : string)
    (workdir_change pre_hooks setup_source post_hooks : list string)
    (jupyter_launch : string)
    (tensorboard_launch readiness_poll token_extraction url_print : list string)
    (foreground : string) (cleanup : list string) (terminator : string)
    : list string :=
  ([header] ++ workdir_change ++ pre_hooks ++ setup_source ++ post_hooks
   ++ [jupyter_launch] ++ tensorboard_launch ++ readiness_poll
   ++ token_extraction ++ url_print ++ [foreground] ++ cleanup
   ++ [terminator])%list.

(** The namespace of a command line the parser accepts. *)
Definition namespace_of (supplied : gmap string string) : gmap string value :=
  match parse_args setup_parser supplied with
  | Ok ns => ns
  | Raise _ => ∅
  end.

(** A computation that spawns nothing. *)
Definition quiet {A : Type} (m : M A) : Prop :=
  forall st, spawned (snd (m st)) = spawned st.

(** A computation that either spawns nothing, or spawns one command and
    then returns normally. *)
Definition spawns_last (m : M unit) : Prop :=
  forall st,
    spawned (snd (m st)) = spawned st \/
    exists cmd, spawned (snd (m st)) = (spawned st ++ [cmd])%list /\
                fst (m st) = Ok tt.

(** The same world with another environment. *)
Definition with_env (w : world) (env : string -> option string) : world :=
  {| getenv := env;
     fs := fs w;
     yaml_load := yaml_load w;
     str_container := str_container w;
     entropy := entropy w;
     shell_status := shell_status w;
     spawn_error := spawn_error w |}.

(** The attributes lines 195-317 read. *)
Definition script_options : list string :=
  [ "host"; "username"; "workdir"; "jupyter"; "mysetup"; "runbefore";
    "runafter"; "compression"; "tensorboard"; "logdir" ].

(** Two namespaces with the same script options. *)
Definition same_script_options (args1 args2 : gmap string value) : Prop :=
  forall opt, In opt script_options -> args1 !! opt = args2 !! opt.

(** Occurrences of a character in a string. *)
Fixpoint count_char (c : ascii) (s : string) : nat :=
  match s with
  | EmptyString => 0
  | String c' rest =>
      if Ascii.eqb c' c then S (count_char c rest) else count_char c rest
  end.



(* ===================================================================== *)
(** ** Ports *)
(* ===================================================================== *)

Lemma randint_range (w : world) (low high : Z) :
  (low < high)%Z -> (low <= randint w low high < high)%Z.
Proof.
  intros Hlt. unfold randint.
  pose proof (Z.mod_pos_bound (entropy w) (high - low)) as Hmod.
  lia.
Qed.

(** C6. Whatever the generator draws, the TensorBoard port is the Jupyter
    port plus one and the Jupyter port is at least 1025 and below 65634. *)
Theorem port_pair_consecutive_in_range (w : world) :
  snd (derive_ports w) = (fst (derive_ports w) + 1)%Z /\
  (1025 <= fst (derive_ports w) < 65634)%Z.
Proof.
  unfold derive_ports. cbn [fst snd]. split; [reflexivity |].
  apply randint_range. lia.
Qed.

(* ===================================================================== *)
(** ** Locating the configuration file *)
(* ===================================================================== *)

(** With the variable set the function stops at the attribute lookup of
    line 26, whether or not the file exists. *)
Lemma get_default_config_override (w : world) (dc p : string) (only_path : bool)
    (st : console) :
  getenv w "STACKYTERCONFIG" = Some p ->
  get_default_config w dc only_path st = (Raise AttributeError, st).
Proof.
  intros Henv. unfold get_default_config. rewrite Henv. reflexivity.
Qed.

(** Without the variable the default path decides. *)
Lemma get_default_config_default (w : world) (dc : string) (st : console) :
  getenv w "STACKYTERCONFIG" = None ->
  get_default_config w dc true st =
    (Ok (match fs w dc with Some _ => VStr dc | None => VNone end), st).
Proof.
  intros Henv. unfold get_default_config. rewrite Henv.
  unfold bind, lift. cbn.
  destruct (fs w dc); reflexivity.
Qed.

(** C3. [STACKYTERCONFIG] names a missing file: the lookup of the default
    configuration stops at once, before the path under the home directory
    is looked at, but with an [AttributeError], not an [IOError]; the same
    happens when the named file exists. *)
Theorem missing_override_raises_attribute_error :
  fs dangling_world "/nowhere.yaml" = None /\
  get_default_config dangling_world home_config true console0
    = (Raise AttributeError, console0) /\
  get_default_config dangling_world home_config false console0
    = (Raise AttributeError, console0) /\
  get_default_config override_world home_config true console0
    = (Raise AttributeError, console0).
Proof. repeat split. Qed.

(* ===================================================================== *)
(** ** Selecting the profile *)
(* ===================================================================== *)

Lemma seq_index_head {A : Type} (x : A) (l : list A) :
  seq_index (x :: l) 0 = Ok x.
Proof. reflexivity. Qed.

Section Profile_selection.

Variable w : world.
Variables path content : string.
Variable d : list (string * value).

Hypothesis Hfile : fs w path = Some (RegularFile content).
Hypothesis Hyaml : yaml_load w content = Ok (VDict d).

Ltac read_file :=
  unfold read_config, bind, lift, print; cbn -[Nat.ltb];
  rewrite Hfile; cbn -[Nat.ltb]; rewrite Hyaml; cbn -[Nat.ltb].

Lemma read_config_requested (name : string) (st : console) :
  fst (read_config w (VStr path) (VStr name) st) =
    match dict_get d name with
    | Some profile => Ok profile
    | None => Raise (IOError ("Configuration `" +:+ name
                              +:+ "` does not exist. Check your default file."))
    end.
Proof.
  read_file. unfold dict_has.
  destruct (dict_get d name); reflexivity.
Qed.

Lemma read_config_default (st : console) :
  (1 < length d)%nat ->
  fst (read_config w (VStr path) VNone st) =
    match dict_get d "default_config" with
    | Some name => py_getitem (VDict d) name
    | None => Raise (IOError
                "You must define a 'default_config' in you configuration file.")
    end.
Proof.
  intros Hlen. read_file.
  apply Nat.ltb_lt in Hlen. rewrite Hlen. unfold dict_has.
  destruct (dict_get d "default_config") as [name |]; cbn; [| reflexivity].
  destruct (py_getitem (VDict d) name); reflexivity.
Qed.

Lemma read_config_sole (st : console) :
  (length d <= 1)%nat ->
  fst (read_config w (VStr path) VNone st) =
    match d with
    | [] => Raise IndexError
    | (_, profile) :: _ => Ok profile
    end.
Proof.
  intros Hlen. read_file.
  assert (Hltb : (1 <? length d)%nat = false) by (apply Nat.ltb_ge; exact Hlen).
  rewrite Hltb.
  destruct d as [| [k profile] rest]; [reflexivity |].
  cbn [map fst]. rewrite seq_index_head.
  cbn. rewrite String.eqb_refl. reflexivity.
Qed.

(** C2. A requested profile that is a top-level key is returned, a
    requested profile that is not raises the descriptive [IOError]; without
    a request, a file of several entries returns the profile named by
    [default_config], raises an [IOError] when that key is missing, and a
    file of one entry returns that entry. *)
Theorem profile_selection (st : console) :
  (forall name profile, dict_get d name = Some profile ->
     fst (read_config w (VStr path) (VStr name) st) = Ok profile) /\
  (forall name, dict_get d name = None ->
     fst (read_config w (VStr path) (VStr name) st) =
       Raise (IOError ("Configuration `" +:+ name
                       +:+ "` does not exist. Check your default file."))) /\
  (forall a profile, (1 < length d)%nat ->
     dict_get d "default_config" = Some (VStr a) ->
     dict_get d a = Some profile ->
     fst (read_config w (VStr path) VNone st) = Ok profile) /\
  ((1 < length d)%nat -> dict_get d "default_config" = None ->
     fst (read_config w (VStr path) VNone st) =
       Raise (IOError
         "You must define a 'default_config' in you configuration file.")) /\
  (forall k profile, d = [(k, profile)] ->
     fst (read_config w (VStr path) VNone st) = Ok profile).
Proof.
  repeat split.
  - intros name profile Hget. rewrite read_config_requested, Hget. reflexivity.
  - intros name Hget. rewrite read_config_requested, Hget. reflexivity.
  - intros a profile Hlen Hdefault Hget.
    rewrite read_config_default, Hdefault by exact Hlen.
    cbn. rewrite Hget. reflexivity.
  - intros Hlen Hdefault.
    rewrite read_config_default, Hdefault by exact Hlen. reflexivity.
  - intros k profile Hd.
    rewrite read_config_sole by (rewrite Hd; cbn; lia).
    rewrite Hd. reflexivity.
Qed.

(** C10. Without a request and with at most one top-level entry, the
    first entry's value is returned when there is one; on an empty mapping
    the lookup of the first key raises [IndexError], which is neither a
    profile nor the [IOError] of a configuration problem. *)
Theorem sole_entry_needs_nonempty (st : console) :
  (length d <= 1)%nat ->
  (forall k profile rest, d = (k, profile) :: rest ->
     fst (read_config w (VStr path) VNone st) = Ok profile) /\
  (d = [] ->
     fst (read_config w (VStr path) VNone st) = Raise IndexError /\
     (forall profile, fst (read_config w (VStr path) VNone st) <> Ok profile) /\
     (forall msg, fst (read_config w (VStr path) VNone st) <> Raise (IOError msg))).
Proof.
  intros Hlen. pose proof (read_config_sole st Hlen) as Hsole. split.
  - intros k profile rest Hd. rewrite Hsole, Hd. reflexivity.
  - intros Hd. rewrite Hsole, Hd. repeat split; intros; discriminate.
Qed.

End Profile_selection.

(* ===================================================================== *)
(** ** Parsing the command line *)
(* ===================================================================== *)

Lemma py_eq_parser_value (a b : value) :
  parser_value a -> parser_value b -> (py_eq a b = true <-> a = b).
Proof.
  destruct a, b; cbn; try tauto; intros _ _; split; intros H;
    try discriminate; try reflexivity.
  - apply Bool.eqb_prop in H. congruence.
  - injection H as ->. apply Bool.eqb_reflx.
  - apply String.eqb_eq in H. congruence.
  - injection H as ->. apply String.eqb_refl.
Qed.

Lemma parse_one_parser_value (a : argument) (given : option string) (v : value) :
  parser_value (default a) -> parse_one a given = Ok v -> parser_value v.
Proof.
  intros Hdefault. unfold parse_one.
  destruct given as [s |]; [| intros [= <-]; exact Hdefault].
  destruct (act a); [| intros [= <-]; exact I].
  destruct (choices a) as [allowed |]; [| intros [= <-]; exact I].
  destruct (existsb (String.eqb s) allowed); [intros [= <-]; exact I | discriminate].
Qed.

(** What a successful parse stored under each name. *)
Lemma parse_args_lookup (parser : list argument) (supplied : gmap string string) :
  forall ns : gmap string value,
  parse_args parser supplied = Ok ns ->
  forall opt : string,
  match find_argument parser opt with
  | Some a => exists v, parse_one a (supplied !! opt) = Ok v /\ ns !! opt = Some v
  | None => ns !! opt = None
  end.
Proof.
  induction parser as [| a rest IH]; intros ns Hparse opt.
  - injection Hparse as <-. cbn. apply lookup_empty.
  - cbn in Hparse.
    destruct (parse_args rest supplied) as [ns' |] eqn:Hrest; [| discriminate].
    cbn in Hparse.
    destruct (parse_one a (supplied !! dest a)) as [v |] eqn:Hone; [| discriminate].
    injection Hparse as <-.
    unfold find_argument. cbn [List.find].
    destruct (String.eqb (dest a) opt) eqn:Heq.
    + apply String.eqb_eq in Heq. subst opt.
      exists v. split; [exact Hone | apply lookup_insert_eq].
    + apply String.eqb_neq in Heq.
      rewrite lookup_insert_ne by exact Heq.
      apply (IH ns' eq_refl opt).
Qed.

Lemma setup_parser_defaults (a : argument) :
  In a setup_parser -> parser_value (default a).
Proof.
  cbn. intros H.
  repeat (destruct H as [<- | H]; [exact I |]). destruct H.
Qed.

Lemma find_argument_In (parser : list argument) (opt : string) (a : argument) :
  find_argument parser opt = Some a -> In a parser /\ dest a = opt.
Proof.
  intros Hfind. apply List.find_some in Hfind as [Hin Heq].
  apply String.eqb_eq in Heq. split; assumption.
Qed.

(** The attributes of a parsed namespace are those of the baseline, and
    all hold parser values. *)
Lemma parsed_attribute (supplied : gmap string string)
    (args default_args : gmap string value) (opt : string) (dflt : value) :
  parse_args setup_parser supplied = Ok args ->
  parse_args setup_parser ∅ = Ok default_args ->
  default_args !! opt = Some dflt ->
  exists mine, args !! opt = Some mine /\ parser_value mine /\ parser_value dflt.
Proof.
  intros Hargs Hdefaults Hdflt.
  pose proof (parse_args_lookup _ _ _ Hargs opt) as Ha.
  pose proof (parse_args_lookup _ _ _ Hdefaults opt) as Hd.
  destruct (find_argument setup_parser opt) as [a |] eqn:Hfind;
    [| congruence].
  apply find_argument_In in Hfind as [Hin _].
  pose proof (setup_parser_defaults a Hin) as Hscalar.
  destruct Ha as (mine & Hmine & Hlook), Hd as (d' & Hd' & Hlook').
  assert (d' = dflt) by congruence. subst d'.
  exists mine. repeat split.
  - exact Hlook.
  - exact (parse_one_parser_value _ _ _ Hscalar Hmine).
  - exact (parse_one_parser_value _ _ _ Hscalar Hd').
Qed.

Lemma parsed_attribute_has_default (supplied : gmap string string)
    (args default_args : gmap string value) (opt : string) :
  parse_args setup_parser supplied = Ok args ->
  parse_args setup_parser ∅ = Ok default_args ->
  is_Some (args !! opt) -> is_Some (default_args !! opt).
Proof.
  intros Hargs Hdefaults [mine Hmine].
  pose proof (parse_args_lookup _ _ _ Hargs opt) as Ha.
  pose proof (parse_args_lookup _ _ _ Hdefaults opt) as Hd.
  destruct (find_argument setup_parser opt) as [a |]; [| congruence].
  destruct Hd as (d' & _ & Hlook'). exists d'. exact Hlook'.
Qed.

Lemma default_args_parse :
  parse_args setup_parser ∅ = Ok (namespace_of ∅).
Proof. vm_compute. reflexivity. Qed.

(* ===================================================================== *)
(** ** The overlay of the profile *)
(* ===================================================================== *)

Section Overlay.

Variable profile : list (string * value).
Variable default_args : gmap string value.

Lemma overlay_step_dict (cur : gmap string value) (o : string) :
  is_Some (cur !! o) -> is_Some (default_args !! o) ->
  exists cur1, overlay_step (VDict profile) default_args cur o = Ok cur1 /\
    cur1 !! o = overlaid profile default_args cur o /\
    forall opt, opt <> o -> cur1 !! opt = cur !! opt.
Proof.
  intros [mine Hmine] [dflt Hdflt].
  unfold overlay_step, overlaid, dict_item, setattr, py_in, py_getitem, dict_has.
  cbn [hashable rbind]. rewrite Hmine, Hdflt.
  destruct (dict_get profile o) as [v |] eqn:Hget; cbn [rbind].
  - destruct (py_eq mine dflt); cbn [rbind].
    + exists (<[o := v]> cur). split; [reflexivity |]. split.
      * apply lookup_insert_eq.
      * intros opt Hne. apply lookup_insert_ne. congruence.
    + exists cur. auto.
  - exists cur. auto.
Qed.

Lemma overlaid_ext (cur cur1 : gmap string value) (opt : string) :
  cur1 !! opt = cur !! opt ->
  overlaid profile default_args cur1 opt = overlaid profile default_args cur opt.
Proof. intros H. unfold overlaid. rewrite H. reflexivity. Qed.

Lemma overlay_loop_dict (kwargs : list (string * value)) :
  NoDup kwargs.*1 ->
  forall cur : gmap string value,
  (forall opt, opt ∈ kwargs.*1 ->
     is_Some (cur !! opt) /\ is_Some (default_args !! opt)) ->
  exists merged, overlay_loop (VDict profile) default_args kwargs cur = Ok merged /\
    forall opt, merged !! opt =
      if decide (opt ∈ kwargs.*1)
      then overlaid profile default_args cur opt
      else cur !! opt.
Proof.
  induction kwargs as [| [o val] rest IH]; intros Hnodup cur Hdom.
  - exists cur. split; [reflexivity |]. intros opt.
    rewrite decide_False; [reflexivity | apply not_elem_of_nil].
  - cbn in Hnodup. apply NoDup_cons in Hnodup as [Hfresh Hnodup].
    destruct (Hdom o) as [Hcur Hdef]; [cbn; apply list_elem_of_here |].
    destruct (overlay_step_dict cur o Hcur Hdef) as (cur1 & Hstep & Hat & Hother).
    destruct (IH Hnodup cur1) as (merged & Hloop & Hmerged).
    { intros opt Hin.
      assert (opt <> o) by (intros ->; contradiction).
      rewrite Hother by assumption.
      apply Hdom. cbn. apply list_elem_of_further. exact Hin. }
    exists merged. split.
    { cbn [overlay_loop]. rewrite Hstep. exact Hloop. }
    intros opt. rewrite Hmerged. cbn [fmap list_fmap fst].
    destruct (decide (opt = o)) as [-> | Hne].
    + rewrite decide_False by exact Hfresh.
      rewrite decide_True by apply list_elem_of_here. exact Hat.
    + destruct (decide (opt ∈ rest.*1)) as [Hin | Hout].
      * rewrite decide_True by (apply list_elem_of_further; exact Hin).
        apply overlaid_ext, Hother, Hne.
      * rewrite decide_False.
        -- apply Hother, Hne.
        -- intros [? | ?]%elem_of_cons; contradiction.
Qed.

(** The overlay of a mapping succeeds and follows the rule option by
    option. *)
Lemma overlay_dict (args : gmap string value) :
  (forall opt, is_Some (args !! opt) -> is_Some (default_args !! opt)) ->
  exists merged, overlay (VDict profile) default_args args = Ok merged /\
    forall opt, merged !! opt = overlaid profile default_args args opt.
Proof.
  intros Hdom. unfold overlay, get_kwargs. cbn [is_none negb].
  destruct (overlay_loop_dict (map_to_list args)) with (cur := args)
    as (merged & Hloop & Hmerged).
  - apply NoDup_fst_map_to_list.
  - intros opt [[o v] [-> Hin]]%list_elem_of_fmap.
    apply elem_of_map_to_list in Hin. cbn.
    split; [eauto | apply Hdom; eauto].
  - exists merged. split; [exact Hloop |].
    intros opt. rewrite Hmerged.
    destruct (decide (opt ∈ (map_to_list args).*1)) as [Hin | Hout];
      [reflexivity |].
    unfold overlaid.
    destruct (args !! opt) as [mine |] eqn:Hmine; [| reflexivity].
    exfalso. apply Hout. apply list_elem_of_fmap.
    exists (opt, mine). split; [reflexivity |].
    apply elem_of_map_to_list. exact Hmine.
Qed.

End Overlay.

(** C1. For every option of the baseline: a parsed value that differs
    from the baseline default is kept whatever the profile holds, and a
    parsed value equal to the default is replaced by the profile's value
    when the profile has the option's key. *)
Theorem overlay_precedence (supplied : gmap string string)
    (args default_args : gmap string value) (profile : list (string * value)) :
  parse_args setup_parser supplied = Ok args ->
  parse_args setup_parser ∅ = Ok default_args ->
  exists merged, overlay (VDict profile) default_args args = Ok merged /\
    forall opt dflt, default_args !! opt = Some dflt ->
      exists mine, args !! opt = Some mine /\
        (mine <> dflt -> merged !! opt = Some mine) /\
        (mine = dflt -> forall v, dict_get profile opt = Some v ->
           merged !! opt = Some v).
Proof.
  intros Hargs Hdefaults.
  destruct (overlay_dict profile default_args args) as (merged & Hoverlay & Hmerged).
  { intros opt. exact (parsed_attribute_has_default _ _ _ opt Hargs Hdefaults). }
  exists merged. split; [exact Hoverlay |].
  intros opt dflt Hdflt.
  destruct (parsed_attribute _ _ _ opt dflt Hargs Hdefaults Hdflt)
    as (mine & Hmine & Hpm & Hpd).
  exists mine. split; [exact Hmine |].
  pose proof (py_eq_parser_value mine dflt Hpm Hpd) as Heq.
  rewrite Hmerged. unfold overlaid. rewrite Hmine, Hdflt. split.
  - intros Hne.
    destruct (py_eq mine dflt) eqn:E; [exfalso; apply Hne, Heq; reflexivity |].
    destruct (dict_get profile opt); reflexivity.
  - intros -> v Hv. rewrite Hv.
    destruct (py_eq dflt dflt) eqn:E; [reflexivity |].
    assert (false = true) by (apply Heq; reflexivity). discriminate.
Qed.

(* ===================================================================== *)
(** ** Hook commands *)
(* ===================================================================== *)

Lemma str_replace_dollar (s : string) :
  str_replace "$" "\$" s = escape_dollars s.
Proof.
  unfold str_replace. induction s as [| c rest IH]; [reflexivity |].
  cbn [replace_from escape_dollars String.prefix String.length Nat.sub].
  destruct (ascii_dec "$" c) as [<- | Hne].
  - cbn. rewrite IH. destruct rest; reflexivity.
  - assert (Ascii.eqb c "$" = false) as ->
      by (apply Ascii.eqb_neq; congruence).
    rewrite IH. reflexivity.
Qed.

Lemma escape_runs_strings (l : list string) :
  escape_runs (map VStr l) = Ok (map (fun s => VStr (escape_dollars s)) l).
Proof.
  induction l as [| s rest IH]; [reflexivity |].
  cbn [map escape_runs escape_run rbind]. rewrite IH. cbn [rbind].
  rewrite str_replace_dollar. reflexivity.
Qed.

Lemma hooks_of_list (l : list string) :
  hooks_of (VList (map VStr l)) = Ok (VList (map VStr (map escape_dollars l))).
Proof.
  unfold hooks_of. cbn [string_to_list rbind py_list].
  rewrite escape_runs_strings. cbn [rbind]. rewrite map_map. reflexivity.
Qed.

Lemma hooks_of_string (s : string) :
  hooks_of (VStr s) =
    Ok (VList (map VStr (map escape_dollars (str_split "," s)))).
Proof.
  unfold hooks_of. cbn [string_to_list rbind py_list].
  rewrite escape_runs_strings. cbn [rbind]. rewrite map_map. reflexivity.
Qed.

Lemma py_join_items_strings (l : list string) :
  py_join_items (map VStr l) = Ok l.
Proof.
  induction l as [| s rest IH]; [reflexivity |].
  cbn [map py_join_items]. rewrite IH. reflexivity.
Qed.

Lemma extend_if_strings (cmd_list : list value) (commands : list string) :
  extend_if cmd_list (VList (map VStr commands)) =
    Ok (cmd_list ++ map VStr commands)%list.
Proof.
  unfold extend_if. destruct commands as [| c rest]; cbn.
  - rewrite app_nil_r. reflexivity.
  - reflexivity.
Qed.

(* ===================================================================== *)
(** ** The command list *)
(* ===================================================================== *)

Ltac attr_lookup :=
  repeat first
    [ rewrite lookup_insert_eq
    | rewrite lookup_insert_ne by discriminate ].

Lemma build_cmd_list_shape (w : world) (m : gmap string value)
    (h wd rb ms ra j tb ld c : value) (pre post : list string)
    (port port_tensorboard : Z) :
  m !! "host" = Some h -> m !! "workdir" = Some wd ->
  m !! "runbefore" = Some rb -> m !! "mysetup" = Some ms ->
  m !! "runafter" = Some ra -> m !! "jupyter" = Some j ->
  m !! "tensorboard" = Some tb -> m !! "logdir" = Some ld ->
  m !! "compression" = Some c ->
  (forall cl, extend_if cl rb = Ok (cl ++ map VStr pre)%list) ->
  (forall cl, extend_if cl ra = Ok (cl ++ map VStr post)%list) ->
  build_cmd_list w m port port_tensorboard =
    Ok (map VStr
      (script_in_order
         (ssh_header c tb (py_str w h) port port_tensorboard)
         (line_unless_none w "cd " wd)
         pre
         (line_unless_none w "source " ms)
         post
         (jupyter_cmd_of w j port)
         (line_if tb (tensorboard_cmd_of w ld port_tensorboard))
         [list_servers_cmd; wait_cmd_of port]
         [server_cmd_of port; token_cmd]
         (shellprint_cmd :: line_if tb tensorboard_print_cmd)
         "fg"
         (kill_jupyter_cmd :: line_if tb kill_tensorboard_cmd)
         "EOF")).
Proof.
  intros Hh Hwd Hrb Hms Hra Hj Htb Hld Hc Hpre Hpost.
  unfold build_cmd_list, ssh_cmd_of, getattr.
  rewrite Hh, Hwd, Hrb, Hms, Hra, Hj, Htb, Hld, Hc. cbn [rbind].
  rewrite Hpre. cbn [rbind]. rewrite Hpost. cbn [rbind].
  unfold script_in_order, ssh_header, line_unless_none, line_if, append.
  destruct (is_none wd), (is_none ms), (py_truthy tb), (py_truthy c);
    cbn [rbind negb]; f_equal;
    rewrite ?map_app, <- ?app_assoc; reflexivity.
Qed.

Lemma validate_ok (w : world) (args : gmap string value)
    (host username tensorboard logdir : value) :
  args !! "host" = Some host -> args !! "username" = Some username ->
  args !! "tensorboard" = Some tensorboard -> args !! "logdir" = Some logdir ->
  is_none host = false ->
  (py_truthy tensorboard = true -> is_none logdir = false) ->
  exists args1 h1, validate w args = Ok args1 /\
    args1 !! "host" = Some h1 /\
    py_str w h1 = ssh_target w username host /\
    forall other, other <> "host" -> args1 !! other = args !! other.
Proof.
  intros Hhost Huser Htb Hld Hvalid Hlogdir.
  unfold validate, getattr, setattr, ssh_target.
  rewrite Hhost. cbn [rbind]. rewrite Hvalid, Huser. cbn [rbind].
  destruct (is_none username); cbn [negb].
  - exists args, host. rewrite Htb. cbn [rbind].
    destruct (py_truthy tensorboard).
    + rewrite Hld. cbn [rbind]. rewrite Hlogdir by reflexivity. cbn [rbind]. auto.
    + cbn [rbind]. auto.
  - exists (<["host" := VStr (py_str w username +:+ "@" +:+ py_str w host)]> args).
    eexists. attr_lookup. rewrite Htb. cbn [rbind].
    assert (Hframe : forall other : string, other <> "host" ->
              <["host" := VStr (py_str w username +:+ "@" +:+ py_str w host)]> args
                !! other = args !! other)
      by (intros other Hne; apply lookup_insert_ne; congruence).
    destruct (py_truthy tensorboard).
    + rewrite Hld. cbn [rbind]. rewrite Hlogdir by reflexivity. cbn [rbind].
      repeat split; auto.
    + cbn [rbind]. repeat split; auto.
Qed.

Lemma prepare_hook_ok (name : string) (m : gmap string value) (hooks : value)
    (commands : list string) :
  m !! name = Some hooks -> hook_commands hooks commands ->
  exists m1 hooks1, prepare_hook name m = Ok m1 /\
    m1 !! name = Some hooks1 /\
    (forall cl, extend_if cl hooks1 = Ok (cl ++ map VStr commands)%list) /\
    forall other, other <> name -> m1 !! other = m !! other.
Proof.
  intros Hlook Hcommands. unfold prepare_hook, getattr, setattr, hook_commands in *.
  rewrite Hlook. cbn [rbind].
  destruct (is_none hooks) eqn:Hnone; cbn [negb].
  - exists m, hooks. destruct hooks; try discriminate. subst commands.
    repeat split; auto.
    intros cl. cbn. rewrite app_nil_r. reflexivity.
  - rewrite Hcommands. cbn [rbind].
    do 2 eexists.
    split; [reflexivity |]. split; [apply lookup_insert_eq |].
    split; [intros cl; apply extend_if_strings |].
    intros other Hne. apply lookup_insert_ne. congruence.
Qed.

Section Command_builder.

Variable w : world.
Variable args : gmap string value.
Variables host username workdir jupyter mysetup runbefore runafter : value.
Variables compression tensorboard logdir : value.
Variables pre post : list string.

Hypothesis Hhost : args !! "host" = Some host.
Hypothesis Husername : args !! "username" = Some username.
Hypothesis Hworkdir : args !! "workdir" = Some workdir.
Hypothesis Hjupyter : args !! "jupyter" = Some jupyter.
Hypothesis Hmysetup : args !! "mysetup" = Some mysetup.
Hypothesis Hrunbefore : args !! "runbefore" = Some runbefore.
Hypothesis Hrunafter : args !! "runafter" = Some runafter.
Hypothesis Hcompression : args !! "compression" = Some compression.
Hypothesis Htensorboard : args !! "tensorboard" = Some tensorboard.
Hypothesis Hlogdir : args !! "logdir" = Some logdir.

Hypothesis Hvalid_host : is_none host = false.
Hypothesis Hvalid_logdir : py_truthy tensorboard = true -> is_none logdir = false.
Hypothesis Hpre : hook_commands runbefore pre.
Hypothesis Hpost : hook_commands runafter post.

(** The command list of options that pass the checks, segment by segment. *)
Lemma command_lines_shape :
  command_lines w args =
    Ok (map VStr
      (script_in_order
         (ssh_header compression tensorboard (ssh_target w username host)
            (fst (derive_ports w)) (snd (derive_ports w)))
         (line_unless_none w "cd " workdir)
         pre
         (line_unless_none w "source " mysetup)
         post
         (jupyter_cmd_of w jupyter (fst (derive_ports w)))
         (line_if tensorboard
            (tensorboard_cmd_of w logdir (snd (derive_ports w))))
         [list_servers_cmd; wait_cmd_of (fst (derive_ports w))]
         [server_cmd_of (fst (derive_ports w)); token_cmd]
         (shellprint_cmd :: line_if tensorboard tensorboard_print_cmd)
         "fg"
         (kill_jupyter_cmd :: line_if tensorboard kill_tensorboard_cmd)
         "EOF")).
Proof.
  unfold command_lines.
  destruct (validate_ok w args host username tensorboard logdir)
    as (args1 & h1 & Hvalidate & Hh1 & Htarget & Hframe1); try assumption.
  rewrite Hvalidate. cbn [rbind]. unfold prepare_hooks.
  destruct (prepare_hook_ok "runbefore" args1 runbefore pre)
    as (args2 & rb & Hprepare2 & Hrb & Hext_pre & Hframe2);
    [rewrite Hframe1 by discriminate; assumption | assumption |].
  rewrite Hprepare2. cbn [rbind].
  destruct (prepare_hook_ok "runafter" args2 runafter post)
    as (args3 & ra & Hprepare3 & Hra & Hext_post & Hframe3);
    [rewrite Hframe2, Hframe1 by discriminate; assumption | assumption |].
  rewrite Hprepare3. cbn [rbind].
  rewrite <- Htarget.
  destruct (derive_ports w) as [port port_tensorboard]. cbn [fst snd].
  apply (build_cmd_list_shape w args3 h1 workdir rb mysetup ra jupyter
           tensorboard logdir compression pre post port port_tensorboard);
    try assumption;
    try (rewrite Hframe3 by discriminate); try assumption;
    try (rewrite Hframe2 by discriminate); try assumption;
    try (rewrite Hframe1 by discriminate); assumption.
Qed.

(** C8. For options that pass the checks the command list is, in this
    order: the SSH header, the change of directory, the pre-hooks, the
    source of the setup file, the post-hooks, the Jupyter launch, the
    TensorBoard launch, the readiness poll, the token extraction, the URL
    print, [fg], the kill line(s) and [EOF]; a step whose option is absent
    contributes no line, and the script is these lines joined by newlines. *)
Theorem script_statement_order :
  let port := fst (derive_ports w) in
  let port_tensorboard := snd (derive_ports w) in
  let lines :=
    script_in_order
      (ssh_header compression tensorboard (ssh_target w username host)
         port port_tensorboard)
      (line_unless_none w "cd " workdir)
      pre
      (line_unless_none w "source " mysetup)
      post
      (jupyter_cmd_of w jupyter port)
      (line_if tensorboard (tensorboard_cmd_of w logdir port_tensorboard))
      [list_servers_cmd; wait_cmd_of port]
      [server_cmd_of port; token_cmd]
      (shellprint_cmd :: line_if tensorboard tensorboard_print_cmd)
      "fg"
      (kill_jupyter_cmd :: line_if tensorboard kill_tensorboard_cmd)
      "EOF" in
  command_lines w args = Ok (map VStr lines) /\
  build_command w args = Ok (str_join LF lines).
Proof.
  cbv zeta. split.
  - apply command_lines_shape.
  - unfold build_command. rewrite command_lines_shape. cbn [rbind].
    unfold py_join. rewrite py_join_items_strings. reflexivity.
Qed.

(** C7. The string ["echo a,echo b"] gives the hooks ["echo a"] and
    ["echo b"] in that order; a list is returned by [string_to_list] as it
    is; every hook command gets a backslash in front of each dollar sign;
    and in the command list the pre-hooks come right after the header and
    the change of directory, and right before the source of the setup file
    and what follows it. *)
Theorem pre_hooks_split_escaped_placed :
  string_to_list (VStr "echo a,echo b") = Ok (VList [VStr "echo a"; VStr "echo b"]) /\
  hooks_of (VStr "echo a,echo b") = Ok (VList [VStr "echo a"; VStr "echo b"]) /\
  (forall l, string_to_list (VList l) = Ok (VList l)) /\
  (forall s, hooks_of (VStr s) =
     Ok (VList (map VStr (map escape_dollars (str_split "," s))))) /\
  (forall commands, hooks_of (VList (map VStr commands)) =
     Ok (VList (map VStr (map escape_dollars commands)))) /\
  exists header rest,
    command_lines w args =
      Ok (map VStr
            ((header :: line_unless_none w "cd " workdir) ++ pre ++
             (line_unless_none w "source " mysetup ++ rest))%list).
Proof.
  split; [reflexivity |]. split; [reflexivity |].
  split; [reflexivity |].
  split; [exact hooks_of_string |]. split; [exact hooks_of_list |].
  rewrite command_lines_shape. unfold script_in_order.
  do 2 eexists. cbn [app]. reflexivity.
Qed.

End Command_builder.

(** With a host that is [None], or TensorBoard requested without a log
    directory, the checks of lines 195-206 raise. *)
Lemma validate_rejects (w : world) (args : gmap string value) :
  args !! "host" = Some VNone \/
  (exists host username tensorboard,
     args !! "host" = Some host /\ args !! "username" = Some username /\
     args !! "tensorboard" = Some tensorboard /\ py_truthy tensorboard = true /\
     args !! "logdir" = Some VNone) ->
  exists msg, validate w args = Raise (ValueError msg).
Proof.
  intros [Hhost | (host & username & tensorboard & Hhost & Huser & Htb & Hon & Hld)];
    unfold validate, getattr, setattr; rewrite Hhost; cbn [rbind].
  - eexists. reflexivity.
  - destruct (is_none host); [eexists; reflexivity |].
    rewrite Huser. cbn [rbind].
    destruct (is_none username); cbn [negb]; attr_lookup;
      rewrite Htb; cbn [rbind]; rewrite Hon; attr_lookup; rewrite Hld;
      cbn; eexists; reflexivity.
Qed.

(** C5 (as amended). When the host option is [None], and when the
    TensorBoard flag is set while the log directory is [None], the
    command builder raises a [ValueError]: no command list and no script
    are produced and nothing is spawned. *)
Theorem validation_fails_fast (w : world) (args : gmap string value)
    (st : console) :
  args !! "host" = Some VNone \/
  (exists host username tensorboard,
     args !! "host" = Some host /\ args !! "username" = Some username /\
     args !! "tensorboard" = Some tensorboard /\ py_truthy tensorboard = true /\
     args !! "logdir" = Some VNone) ->
  exists msg,
    command_lines w args = Raise (ValueError msg) /\
    build_command w args = Raise (ValueError msg) /\
    execute w args st = (Raise (ValueError msg), st).
Proof.
  intros Hbad. destruct (validate_rejects w args Hbad) as [msg Hmsg].
  exists msg.
  assert (Hlines : command_lines w args = Raise (ValueError msg))
    by (unfold command_lines; rewrite Hmsg; reflexivity).
  assert (Hcmd : build_command w args = Raise (ValueError msg))
    by (unfold build_command; rewrite Hlines; reflexivity).
  repeat split; try assumption.
  unfold execute, bind, lift. rewrite Hcmd. reflexivity.
Qed.

(* ===================================================================== *)
(** ** What a run spawns *)
(* ===================================================================== *)

Lemma quiet_ret {A : Type} (a : A) : quiet (ret a).
Proof. intros st. reflexivity. Qed.

Lemma quiet_raise {A : Type} (e : exn) : quiet (@raise A e).
Proof. intros st. reflexivity. Qed.

Lemma quiet_lift {A : Type} (r : result A) : quiet (lift r).
Proof. intros st. reflexivity. Qed.

Lemma quiet_print (line : string) : quiet (print line).
Proof. intros st. reflexivity. Qed.

Lemma quiet_bind {A B : Type} (m : M A) (k : A -> M B) :
  quiet m -> (forall a, quiet (k a)) -> quiet (bind m k).
Proof.
  intros Hm Hk st. unfold bind. specialize (Hm st).
  destruct (m st) as [[a | e] st']; cbn in *.
  - rewrite Hk. exact Hm.
  - exact Hm.
Qed.

Create HintDb quiet.
#[local] Hint Resolve quiet_ret quiet_raise quiet_lift quiet_print : quiet.

Ltac quiet_steps :=
  repeat first
    [ apply quiet_bind; [| intros ?]
    | match goal with
      | |- quiet (if ?b then _ else _) => destruct b
      | |- quiet (match ?x with _ => _ end) => destruct x
      end
    | solve [auto with quiet] ].

Lemma quiet_get_default_config (w : world) (dc : string) (only_path : bool) :
  quiet (get_default_config w dc only_path).
Proof. unfold get_default_config, finish_default_config. quiet_steps. Qed.

Lemma quiet_read_config (w : world) (config key : value) :
  quiet (read_config w config key).
Proof. unfold read_config. quiet_steps. Qed.

Lemma quiet_get_config (w : world) (dc : string) (config configfile : value) :
  quiet (get_config w dc config configfile).
Proof.
  unfold get_config.
  apply quiet_bind.
  - destruct (is_none configfile);
      [apply quiet_get_default_config | apply quiet_ret].
  - intros cf. destruct (negb (is_none config)).
    + destruct (is_none cf); [apply quiet_raise | apply quiet_read_config].
    + destruct (negb (is_none cf)); [apply quiet_read_config | apply quiet_ret].
Qed.

Lemma quiet_show_config (w : world) (dc : string) : quiet (show_config w dc).
Proof.
  unfold show_config, sys_exit.
  apply quiet_bind; [apply quiet_get_default_config | intros config].
  quiet_steps.
Qed.

Lemma quiet_spawns_last (m : M unit) : quiet m -> spawns_last m.
Proof. intros Hm st. left. apply Hm. Qed.

Lemma spawns_last_bind {A : Type} (m : M A) (k : A -> M unit) :
  quiet m -> (forall a, spawns_last (k a)) -> spawns_last (bind m k).
Proof.
  intros Hm Hk st. unfold bind. specialize (Hm st).
  destruct (m st) as [[a | e] st']; cbn in *.
  - rewrite <- Hm. apply Hk.
  - left. exact Hm.
Qed.

Lemma spawns_last_execute (w : world) (args : gmap string value) :
  spawns_last (execute w args).
Proof.
  unfold execute. apply spawns_last_bind; [apply quiet_lift | intros cmd].
  intros st. unfold bind, subprocess_call, raise.
  destruct (has_nul cmd); [left; reflexivity |].
  destruct (spawn_error w cmd); [left; reflexivity |].
  right. exists cmd. split; reflexivity.
Qed.

Lemma spawns_last_main (w : world) (dc : string) (supplied : gmap string string) :
  spawns_last (main w dc supplied).
Proof.
  unfold main.
  apply spawns_last_bind; [apply quiet_lift | intros args].
  apply spawns_last_bind; [apply quiet_lift | intros default_args].
  apply spawns_last_bind; [apply quiet_lift | intros showconfig].
  destruct (py_truthy showconfig).
  - apply quiet_spawns_last, quiet_show_config.
  - apply spawns_last_bind; [apply quiet_lift | intros config_name].
    apply spawns_last_bind; [apply quiet_lift | intros configfile].
    apply spawns_last_bind; [apply quiet_get_config | intros config].
    apply spawns_last_bind; [apply quiet_lift | intros merged].
    apply spawns_last_execute.
Qed.

Lemma spawns_last_stackyter_py (w : world) (supplied : gmap string string) :
  spawns_last (stackyter_py w supplied).
Proof.
  unfold stackyter_py. destruct (getenv w "HOME").
  - apply spawns_last_main.
  - apply quiet_spawns_last, quiet_raise.
Qed.


(* ===================================================================== *)
(** ** Showing the configuration file *)
(* ===================================================================== *)

Lemma parsed_flag (supplied : gmap string string) (args : gmap string value)
    (given : string) :
  parse_args setup_parser supplied = Ok args ->
  supplied !! "showconfig" = Some given ->
  getattr args "showconfig" = Ok (VBool true).
Proof.
  intros Hparse Hgiven.
  pose proof (parse_args_lookup _ _ _ Hparse "showconfig") as Hlook.
  cbn in Hlook. rewrite Hgiven in Hlook.
  destruct Hlook as (v & Hv & Hattr). cbn in Hv. injection Hv as <-.
  unfold getattr. rewrite Hattr. reflexivity.
Qed.

(** X19. With the flag set and [STACKYTERCONFIG] unset, the run prints
    the header and the raw contents of the file under the home directory
    when it is there, the absence message when nothing is there, and in
    both cases ends with [sys.exit(0)], having printed nothing else and
    spawned nothing. *)
Theorem showconfig_displays_and_exits (w : world) (home given : string)
    (supplied : gmap string string) (args : gmap string value) :
  getenv w "HOME" = Some home ->
  getenv w "STACKYTERCONFIG" = None ->
  parse_args setup_parser supplied = Ok args ->
  supplied !! "showconfig" = Some given ->
  (forall content,
     fs w (home +:+ "/.stackyter-config.yaml") = Some (RegularFile content) ->
     stackyter_py w supplied console0 =
       (Raise (SystemExit 0),
        {| stdout := ["Your default configuration file contains the following configuration(s).";
                      content];
           spawned := [] |}) /\
     tool_exit_status w supplied = 0%Z) /\
  (fs w (home +:+ "/.stackyter-config.yaml") = None ->
     stackyter_py w supplied console0 =
       (Raise (SystemExit 0),
        {| stdout := ["Error: No default configuration file found."];
           spawned := [] |}) /\
     tool_exit_status w supplied = 0%Z).
Proof.
  intros Hhome Henv Hparse Hflag.
  assert (Hrun : stackyter_py w supplied console0 =
                 show_config w (home +:+ "/.stackyter-config.yaml") console0).
  { unfold stackyter_py. rewrite Hhome. unfold main, bind, lift.
    rewrite Hparse, default_args_parse.
    rewrite (parsed_flag supplied args given Hparse Hflag). reflexivity. }
  unfold tool_exit_status. rewrite Hrun.
  unfold show_config, bind, sys_exit, raise.
  rewrite (get_default_config_default w _ console0 Henv).
  split.
  - intros content Hfile. rewrite Hfile. cbn. rewrite Hfile. cbn. auto.
  - intros Hfile. rewrite Hfile. cbn. auto.
Qed.

(** C9. [--showconfig] while [STACKYTERCONFIG] names a file that exists:
    the file is there to be shown, yet the run prints nothing and ends
    with the [AttributeError] of line 26 and exit status 1, where the
    contents of the file and exit status 0 were meant. *)
Theorem showconfig_with_existing_override :
  getenv override_world "STACKYTERCONFIG" = Some "/etc/stackyter.yaml" /\
  fs override_world "/etc/stackyter.yaml" = Some (RegularFile "profiles") /\
  stackyter_py override_world (cli [("showconfig", "")]) console0
    = (Raise AttributeError, console0) /\
  tool_exit_status override_world (cli [("showconfig", "")]) = 1%Z.
Proof.
  split; [reflexivity |]. split; [reflexivity |].
  split; vm_compute; reflexivity.
Qed.

(* ===================================================================== *)
(** ** The theorems on sample runs *)
(* ===================================================================== *)

(** The command line [--jupyter lab] over a profile giving a host and the
    mode [notebook]: the host comes from the profile, the mode stays. *)
Lemma overlay_precedence_sample :
  exists merged,
    overlay (VDict lab_profile) (namespace_of ∅)
      (namespace_of (cli [("jupyter", "lab")])) = Ok merged /\
    merged !! "host" = Some (VStr "alpha") /\
    merged !! "jupyter" = Some (VStr "lab").
Proof.
  destruct (overlay_precedence (cli [("jupyter", "lab")])
              (namespace_of (cli [("jupyter", "lab")])) (namespace_of ∅)
              lab_profile)
    as (merged & Hoverlay & Hrule).
  - vm_compute. reflexivity.
  - vm_compute. reflexivity.
  - exists merged. split; [exact Hoverlay |]. split.
    + destruct (Hrule "host" VNone) as (mine & Hmine & _ & Hsame).
      { vm_compute. reflexivity. }
      vm_compute in Hmine. injection Hmine as <-.
      apply Hsame; reflexivity.
    + destruct (Hrule "jupyter" (VStr "notebook")) as (mine & Hmine & Hkept & _).
      { vm_compute. reflexivity. }
      vm_compute in Hmine. injection Hmine as <-.
      apply Hkept. discriminate.
Defined.

(** The file of two profiles: [b] on request, [a] by default. *)
Lemma profile_selection_sample :
  fst (read_config profile_world (VStr home_config) (VStr "b") console0)
    = Ok (VDict [("host", VStr "beta")]) /\
  fst (read_config profile_world (VStr home_config) VNone console0)
    = Ok (VDict [("host", VStr "alpha"); ("jupyter", VStr "lab")]).
Proof.
  destruct (profile_selection profile_world home_config "profiles"
              [ ("a", VDict [("host", VStr "alpha"); ("jupyter", VStr "lab")]);
                ("b", VDict [("host", VStr "beta")]);
                ("default_config", VStr "a") ]
              eq_refl eq_refl console0)
    as (Hrequested & _ & Hdefault & _ & _).
  split.
  - apply Hrequested. reflexivity.
  - apply (Hdefault "a"); [simpl; lia | reflexivity | reflexivity].
Defined.

(** The file with an empty mapping: [IndexError]. *)
Lemma sole_entry_needs_nonempty_sample :
  fst (read_config empty_world (VStr home_config) VNone console0) = Raise IndexError.
Proof.
  destruct (sole_entry_needs_nonempty empty_world home_config "{}" []
              eq_refl eq_refl console0) as (_ & Hempty).
  - simpl. lia.
  - destruct (Hempty eq_refl) as (Hraise & _). exact Hraise.
Defined.

(** The full command line: the two pre-hooks sit between the change of
    directory and the source of the setup file. *)
Lemma pre_hooks_sample :
  exists header rest,
    command_lines bare_world (namespace_of full_cli) =
      Ok (map VStr
            ([header; "cd /w"] ++ ["echo a"; "echo b"] ++ "source s.sh" :: rest)%list).
Proof.
  destruct (pre_hooks_split_escaped_placed bare_world (namespace_of full_cli)
              (VStr "h") (VStr "u") (VStr "/w") (VStr "notebook") (VStr "s.sh")
              (VStr "echo a,echo b") (VStr "ls $HOME")
              (VBool false) (VBool true) (VStr "/l")
              ["echo a"; "echo b"] ["ls \$HOME"])
    as (_ & _ & _ & _ & _ & header & rest & Hlines);
    try (vm_compute; reflexivity).
  exists header, rest. exact Hlines.
Defined.

(** The full command line: the eighteen lines of its script. *)
Lemma script_statement_order_sample :
  command_lines bare_world (namespace_of full_cli) =
    Ok (map VStr
      [ "ssh -Ytt -L 20001:localhost:1032 -L 20002:localhost:1033 u@h << EOF";
        "cd /w"; "echo a"; "echo b"; "source s.sh"; "ls \$HOME";
        jupyter_cmd_of bare_world (VStr "notebook") 1032;
        tensorboard_cmd_of bare_world (VStr "/l") 1033;
        list_servers_cmd; wait_cmd_of 1032;
        server_cmd_of 1032; token_cmd;
        shellprint_cmd; tensorboard_print_cmd;
        "fg"; kill_jupyter_cmd; kill_tensorboard_cmd; "EOF" ]).
Proof.
  refine (proj1 (script_statement_order bare_world (namespace_of full_cli)
              (VStr "h") (VStr "u") (VStr "/w") (VStr "notebook") (VStr "s.sh")
              (VStr "echo a,echo b") (VStr "ls $HOME")
              (VBool false) (VBool true) (VStr "/l")
              ["echo a"; "echo b"] ["ls \$HOME"]
              _ _ _ _ _ _ _ _ _ _ _ _ _ _));
    vm_compute; reflexivity.
Defined.

(** No host on the command line and no profile: a [ValueError], nothing
    spawned. *)
Lemma validation_fails_fast_sample :
  exists msg,
    command_lines bare_world (namespace_of ∅) = Raise (ValueError msg) /\
    build_command bare_world (namespace_of ∅) = Raise (ValueError msg) /\
    execute bare_world (namespace_of ∅) console0 = (Raise (ValueError msg), console0).
Proof.
  apply (validation_fails_fast bare_world (namespace_of ∅) console0).
  left. vm_compute. reflexivity.
Defined.

(** An empty host passes the checks: the script is built and run. *)
Lemma empty_host_is_accepted :
  getattr (namespace_of (cli [("host", "")])) "host" = Ok (VStr "") /\
  (forall msg, build_command bare_world (namespace_of (cli [("host", "")]))
               <> Raise (ValueError msg)) /\
  exists cmd,
    execute bare_world (namespace_of (cli [("host", "")])) console0
      = (Ok tt, {| stdout := []; spawned := [cmd] |}).
Proof.
  split; [vm_compute; reflexivity |]. split.
  - intros msg. vm_compute. discriminate.
  - eexists. vm_compute. reflexivity.
Qed.



(** The default file of the two profiles is printed as it is. *)
Lemma showconfig_sample :
  stackyter_py profile_world (cli [("showconfig", "")]) console0 =
    (Raise (SystemExit 0),
     {| stdout := ["Your default configuration file contains the following configuration(s).";
                   "profiles"];
        spawned := [] |}) /\
  tool_exit_status profile_world (cli [("showconfig", "")]) = 0%Z.
Proof.
  destruct (showconfig_displays_and_exits profile_world "/home/ada" ""
              (cli [("showconfig", "")]) (namespace_of (cli [("showconfig", "")])))
    as (Hfile & _); try (vm_compute; reflexivity).
  apply (Hfile "profiles"). vm_compute. reflexivity.
Defined.

(** With [STACKYTERCONFIG] naming a missing file and no file under the
    home directory, [--showconfig] prints nothing and exits with status 1. *)
Lemma showconfig_with_dangling_override :
  fs dangling_world "/nowhere.yaml" = None /\
  fs dangling_world home_config = None /\
  stackyter_py dangling_world (cli [("showconfig", "")]) console0
    = (Raise AttributeError, console0) /\
  tool_exit_status dangling_world (cli [("showconfig", "")]) <> 0%Z.
Proof.
  split; [reflexivity |]. split; [reflexivity |].
  split; [vm_compute; reflexivity |]. vm_compute. discriminate.
Qed.

(* ===================================================================== *)
(** ** Runs that fail, runs that spawn *)
(* ===================================================================== *)

(** X1. A run that ends with an exception, [SystemExit] included, has
    spawned no shell. *)
Theorem failed_run_spawns_nothing (w : world) (supplied : gmap string string)
    (e : exn) :
  fst (stackyter_py w supplied console0) = Raise e ->
  spawned (snd (stackyter_py w supplied console0)) = [].
Proof.
  intros Hraise.
  destruct (spawns_last_stackyter_py w supplied console0)
    as [Hnone | (cmd & _ & Hok)].
  - exact Hnone.
  - rewrite Hok in Hraise. discriminate.
Qed.

Lemma failed_run_spawns_nothing_sample :
  spawned (snd (stackyter_py bare_world (cli []) console0)) = [].
Proof.
  apply (failed_run_spawns_nothing bare_world (cli [])
           (ValueError "You must give a valide host name (--host)")).
  vm_compute. reflexivity.
Defined.

(** The attributes lines 174 and 187 read, for an accepted command line. *)
Lemma parsed_front_attributes (supplied : gmap string string)
    (args : gmap string value) :
  parse_args setup_parser supplied = Ok args ->
  exists showconfig config configfile,
    args !! "showconfig" = Some showconfig /\
    args !! "config" = Some config /\
    args !! "configfile" = Some configfile /\
    parse_one (add_argument "showconfig" (VBool false) StoreTrue None)
      (supplied !! "showconfig") = Ok showconfig /\
    parse_one (add_argument "config" VNone Store None)
      (supplied !! "config") = Ok config /\
    parse_one (add_argument "configfile" VNone Store None)
      (supplied !! "configfile") = Ok configfile.
Proof.
  intros Hparse.
  pose proof (parse_args_lookup _ _ _ Hparse "showconfig") as (s & Hs & Hls).
  pose proof (parse_args_lookup _ _ _ Hparse "config") as (c & Hc & Hlc).
  pose proof (parse_args_lookup _ _ _ Hparse "configfile") as (f & Hf & Hlf).
  exists s, c, f. repeat split; assumption.
Qed.

(** X2. With [STACKYTERCONFIG] set and no [--configfile], every accepted
    command line ends with the [AttributeError] of line 26, whatever the
    variable names and whatever else is asked: nothing is printed and
    nothing is spawned. *)
Theorem override_breaks_every_run (w : world) (home p : string)
    (supplied : gmap string string) (args : gmap string value) (st : console) :
  getenv w "HOME" = Some home ->
  getenv w "STACKYTERCONFIG" = Some p ->
  parse_args setup_parser supplied = Ok args ->
  supplied !! "configfile" = None ->
  stackyter_py w supplied st = (Raise AttributeError, st).
Proof.
  intros Hhome Henv Hparse Hnofile.
  destruct (parsed_front_attributes supplied args Hparse)
    as (s & c & f & Hs & Hc & Hf & _ & _ & Hpf).
  rewrite Hnofile in Hpf. cbn in Hpf. injection Hpf as <-.
  unfold stackyter_py. rewrite Hhome. unfold main, bind, lift, getattr.
  rewrite Hparse, default_args_parse, Hs.
  destruct (py_truthy s).
  - unfold show_config, bind.
    rewrite (get_default_config_override w _ p true st Henv). reflexivity.
  - rewrite Hc, Hf. unfold get_config, bind. cbn [is_none].
    rewrite (get_default_config_override w _ p true st Henv). reflexivity.
Qed.

Lemma override_breaks_every_run_sample :
  stackyter_py override_world (cli [("host", "h")]) console0
    = (Raise AttributeError, console0).
Proof.
  apply (override_breaks_every_run override_world "/home/ada" "/etc/stackyter.yaml"
           (cli [("host", "h")]) (namespace_of (cli [("host", "h")])) console0);
    vm_compute; reflexivity.
Defined.

(** X3. With [--configfile] given and [--showconfig] not, the environment
    is not consulted by [main]: the run is the same under any other
    environment. *)
Theorem explicit_file_ignores_environment (w : world)
    (env : string -> option string) (dc f : string)
    (supplied : gmap string string) (st : console) :
  supplied !! "configfile" = Some f ->
  supplied !! "showconfig" = None ->
  main (with_env w env) dc supplied st = main w dc supplied st.
Proof.
  intros Hfile Hshow. unfold main, bind, lift, getattr.
  destruct (parse_args setup_parser supplied) as [args | e] eqn:Hparse;
    [| reflexivity].
  destruct (parsed_front_attributes supplied args Hparse)
    as (s & c & cf & Hs & Hc & Hf & Hps & _ & Hpf).
  rewrite Hshow in Hps. cbn in Hps. injection Hps as <-.
  rewrite Hfile in Hpf. cbn in Hpf. injection Hpf as <-.
  rewrite default_args_parse, Hs, Hc, Hf. cbn [py_truthy].
  unfold get_config, bind, ret. cbn [is_none negb].
  destruct (negb (is_none c)); reflexivity.
Qed.

Lemma explicit_file_ignores_environment_sample :
  main (with_env override_world (assoc home_env)) home_config
    (cli [("configfile", "/etc/stackyter.yaml")]) console0
  = main override_world home_config
      (cli [("configfile", "/etc/stackyter.yaml")]) console0.
Proof.
  apply (explicit_file_ignores_environment override_world (assoc home_env)
           home_config "/etc/stackyter.yaml"); vm_compute; reflexivity.
Defined.

(* ===================================================================== *)
(** ** Runs without a configuration file *)
(* ===================================================================== *)

(** X4. A profile is requested, no file is given, [STACKYTERCONFIG] is
    unset and nothing exists at the default path: [get_config] raises the
    [IOError] of line 72 and prints nothing. *)
Theorem named_profile_needs_a_file (w : world) (dc : string) (name : value)
    (st : console) :
  getenv w "STACKYTERCONFIG" = None ->
  fs w dc = None ->
  is_none name = false ->
  get_config w dc name VNone st =
    (Raise (IOError "No (default) configuration file found or given. Check the doc."),
     st).
Proof.
  intros Henv Habsent Hname. unfold get_config, bind. cbn [is_none].
  rewrite (get_default_config_default w dc st Henv), Habsent, Hname.
  reflexivity.
Qed.

Lemma named_profile_needs_a_file_sample :
  get_config bare_world home_config (VStr "a") VNone console0 =
    (Raise (IOError "No (default) configuration file found or given. Check the doc."),
     console0).
Proof.
  apply (named_profile_needs_a_file bare_world home_config (VStr "a") console0);
    reflexivity.
Defined.

(** X5. No profile, no file, no [--showconfig], [STACKYTERCONFIG] unset and
    nothing at the default path: the run prints nothing of its own and is
    the execution of the options as the parser left them. *)
Theorem no_config_runs_command_line (w : world) (home : string)
    (supplied : gmap string string) (args : gmap string value) (st : console) :
  getenv w "HOME" = Some home ->
  getenv w "STACKYTERCONFIG" = None ->
  fs w (home +:+ "/.stackyter-config.yaml") = None ->
  parse_args setup_parser supplied = Ok args ->
  supplied !! "showconfig" = None ->
  supplied !! "config" = None ->
  supplied !! "configfile" = None ->
  stackyter_py w supplied st = execute w args st.
Proof.
  intros Hhome Henv Habsent Hparse Hshow Hname Hfile.
  destruct (parsed_front_attributes supplied args Hparse)
    as (s & c & cf & Hs & Hc & Hf & Hps & Hpc & Hpf).
  rewrite Hshow in Hps. cbn in Hps. injection Hps as <-.
  rewrite Hname in Hpc. cbn in Hpc. injection Hpc as <-.
  rewrite Hfile in Hpf. cbn in Hpf. injection Hpf as <-.
  unfold stackyter_py. rewrite Hhome. unfold main, bind, lift, getattr.
  rewrite Hparse, default_args_parse, Hs, Hc, Hf. cbn [py_truthy].
  unfold get_config, bind. cbn [is_none].
  rewrite (get_default_config_default w _ st Henv), Habsent.
  cbn [is_none negb ret]. unfold ret, overlay. cbn [is_none negb].
  unfold execute, bind, lift. reflexivity.
Qed.

Lemma no_config_runs_command_line_sample :
  stackyter_py bare_world (cli [("host", "h")]) console0
    = execute bare_world (namespace_of (cli [("host", "h")])) console0.
Proof.
  apply (no_config_runs_command_line bare_world "/home/ada"
           (cli [("host", "h")]) (namespace_of (cli [("host", "h")])) console0);
    vm_compute; reflexivity.
Defined.

(* ===================================================================== *)
(** ** Files that are missing, empty or inconsistent *)
(* ===================================================================== *)

(** X6. [default_config] names a profile the file does not have: the
    lookup of line 55 raises [KeyError], not the [IOError] of a
    configuration problem. *)
Theorem dangling_default_config (w : world) (path content a : string)
    (d : list (string * value)) (st : console) :
  fs w path = Some (RegularFile content) ->
  yaml_load w content = Ok (VDict d) ->
  (1 < length d)%nat ->
  dict_get d "default_config" = Some (VStr a) ->
  dict_get d a = None ->
  fst (read_config w (VStr path) VNone st) = Raise KeyError.
Proof.
  intros Hfile Hyaml Hlen Hdefault Hmissing.
  rewrite (read_config_default w path content d Hfile Hyaml st Hlen), Hdefault.
  cbn. rewrite Hmissing. reflexivity.
Qed.

(** X7. The file to read does not exist: [read_config] prints the line
    that announces the loading, then raises an [IOError], whatever profile
    is asked for. *)
Theorem read_config_missing_file (w : world) (path : string) (key : value)
    (st : console) :
  fs w path = None ->
  read_config w (VStr path) key st =
    (Raise (IOError "No such file or directory"),
     {| stdout := stdout st ++ ["INFO: Loading configuration from " +:+ path];
        spawned := spawned st |}).
Proof.
  intros Habsent. unfold read_config, bind, lift, print. cbn.
  rewrite Habsent. reflexivity.
Qed.

Lemma read_config_missing_file_sample :
  read_config bare_world (VStr "/tmp/none.yaml") VNone console0 =
    (Raise (IOError "No such file or directory"),
     {| stdout := ["INFO: Loading configuration from /tmp/none.yaml"];
        spawned := [] |}).
Proof.
  apply (read_config_missing_file bare_world "/tmp/none.yaml" VNone console0).
  reflexivity.
Defined.

(** X8. The file holds an empty document, which the loader returns as
    [None]: [read_config] raises [TypeError], with or without a requested
    profile. *)
Theorem read_config_empty_document (w : world) (path content : string)
    (key : value) (st : console) :
  fs w path = Some (RegularFile content) ->
  yaml_load w content = Ok VNone ->
  fst (read_config w (VStr path) key st) = Raise TypeError.
Proof.
  intros Hfile Hyaml. unfold read_config, bind, lift, print. cbn.
  rewrite Hfile. cbn. rewrite Hyaml. cbn.
  destruct (is_none key); reflexivity.
Qed.

Lemma dangling_default_config_sample :
  fst (read_config broken_default_world (VStr home_config) VNone console0)
    = Raise KeyError.
Proof.
  apply (dangling_default_config broken_default_world home_config "broken" "c"
           broken_default console0);
    try reflexivity.
  simpl. lia.
Defined.

Lemma read_config_empty_document_sample :
  fst (read_config blank_world (VStr home_config) (VStr "a") console0)
    = Raise TypeError.
Proof.
  apply (read_config_empty_document blank_world home_config "" (VStr "a") console0);
    reflexivity.
Defined.

(* ===================================================================== *)
(** ** What the overlay and the parser cannot tell apart *)
(* ===================================================================== *)

(** X9. The overlay of a mapping neither adds nor removes an attribute:
    a profile key that is no option of the parser is dropped. *)
Theorem overlay_keeps_attributes (profile : list (string * value))
    (default_args args : gmap string value) :
  (forall opt, is_Some (args !! opt) -> is_Some (default_args !! opt)) ->
  exists merged,
    overlay (VDict profile) default_args args = Ok merged /\
    dom merged = dom args.
Proof.
  intros Hdom.
  destruct (overlay_dict profile default_args args Hdom)
    as (merged & Hoverlay & Hmerged).
  exists merged. split; [exact Hoverlay |].
  apply set_eq. intros opt. rewrite !elem_of_dom, Hmerged.
  unfold overlaid.
  destruct (args !! opt) as [mine |]; [| reflexivity].
  destruct (dict_get profile opt), (default_args !! opt);
    try destruct (py_eq mine _); split; eauto.
Qed.

Lemma overlay_keeps_attributes_sample :
  exists merged,
    overlay (VDict [("host", VStr "alpha"); ("color", VStr "red")])
      (namespace_of ∅) (namespace_of (cli [("jupyter", "lab")])) = Ok merged /\
    dom merged = dom (namespace_of (cli [("jupyter", "lab")])).
Proof.
  apply (overlay_keeps_attributes
           [("host", VStr "alpha"); ("color", VStr "red")]
           (namespace_of ∅) (namespace_of (cli [("jupyter", "lab")]))).
  intros opt Hopt.
  apply (parsed_attribute_has_default (cli [("jupyter", "lab")])
           (namespace_of (cli [("jupyter", "lab")])) (namespace_of ∅) opt);
    [vm_compute; reflexivity | vm_compute; reflexivity | exact Hopt].
Defined.

Lemma parse_args_ext (parser : list argument) (s1 s2 : gmap string string) :
  (forall a, In a parser ->
     parse_one a (s1 !! dest a) = parse_one a (s2 !! dest a)) ->
  parse_args parser s1 = parse_args parser s2.
Proof.
  induction parser as [| a rest IH]; intros Hsame; [reflexivity |].
  cbn [parse_args].
  rewrite IH by (intros b Hb; apply Hsame; right; exact Hb).
  rewrite (Hsame a) by (left; reflexivity). reflexivity.
Qed.

(** X10. Giving [--jupyter notebook] is the same as not giving the
    option: the parser returns the same namespace and the run is the
    same, profile overlay included. *)
Theorem explicit_default_is_not_seen (w : world) (dc : string)
    (supplied : gmap string string) (st : console) :
  supplied !! "jupyter" = Some "notebook" ->
  parse_args setup_parser supplied
    = parse_args setup_parser (delete "jupyter" supplied) /\
  main w dc supplied st = main w dc (delete "jupyter" supplied) st.
Proof.
  intros Hgiven.
  assert (Hparse : parse_args setup_parser supplied
                   = parse_args setup_parser (delete "jupyter" supplied)).
  { apply parse_args_ext. intros a Hin. cbn in Hin.
    repeat (destruct Hin as [<- | Hin];
            [cbn [dest add_argument];
             first [ rewrite lookup_delete_ne by discriminate; reflexivity
                   | rewrite lookup_delete_eq, Hgiven; reflexivity ] |]).
    destruct Hin. }
  split; [exact Hparse |].
  unfold main. rewrite Hparse. reflexivity.
Qed.

Lemma explicit_default_is_not_seen_sample :
  parse_args setup_parser (cli [("host", "h"); ("jupyter", "notebook")])
    = parse_args setup_parser
        (delete "jupyter" (cli [("host", "h"); ("jupyter", "notebook")])) /\
  main profile_world home_config
    (cli [("host", "h"); ("jupyter", "notebook")]) console0
  = main profile_world home_config
      (delete "jupyter" (cli [("host", "h"); ("jupyter", "notebook")])) console0.
Proof.
  apply (explicit_default_is_not_seen profile_world home_config
           (cli [("host", "h"); ("jupyter", "notebook")]) console0).
  vm_compute. reflexivity.
Defined.

(* ===================================================================== *)
(** ** Splitting and escaping hook strings *)
(* ===================================================================== *)

Lemma prefix_empty (s : string) : String.prefix "" s = true.
Proof. destruct s; reflexivity. Qed.

Lemma split_comma_step (c : ascii) (cur rest : string) :
  split_from "," 0 cur (String c rest) =
    if Ascii.eqb c ","%char
    then cur :: split_from "," 0 EmptyString rest
    else split_from "," 0 (cur +:+ String c EmptyString) rest.
Proof.
  cbn [split_from String.prefix String.length Nat.sub].
  destruct (ascii_dec "," c) as [<- | Hne].
  - rewrite prefix_empty. reflexivity.
  - assert (Ascii.eqb c "," = false) as ->
      by (apply Ascii.eqb_neq; congruence).
    reflexivity.
Qed.

Lemma app_snoc (a : string) (c : ascii) (r : string) :
  (a +:+ String c EmptyString) +:+ r = a +:+ String c r.
Proof.
  induction a as [| x a IH]; [reflexivity |].
  change ((String x a +:+ String c EmptyString) +:+ r)
    with (String x ((a +:+ String c EmptyString) +:+ r)).
  rewrite IH. reflexivity.
Qed.

Lemma app_empty_r (a : string) : a +:+ EmptyString = a.
Proof.
  induction a as [| x a IH]; [reflexivity |].
  change (String x a +:+ EmptyString) with (String x (a +:+ EmptyString)).
  rewrite IH. reflexivity.
Qed.

Lemma count_char_snoc (c x : ascii) (a : string) :
  count_char c (a +:+ String x EmptyString) =
    (count_char c a + if Ascii.eqb x c then 1 else 0)%nat.
Proof.
  induction a as [| y a IH].
  - change (EmptyString +:+ String x EmptyString) with (String x EmptyString).
    cbn [count_char]. destruct (Ascii.eqb x c); reflexivity.
  - change (String y a +:+ String x EmptyString)
      with (String y (a +:+ String x EmptyString)).
    cbn [count_char]. rewrite IH. destruct (Ascii.eqb y c); reflexivity.
Qed.

Lemma split_comma_spec (s : string) :
  forall cur : string,
  count_char "," cur = 0%nat ->
  str_join "," (split_from "," 0 cur s) = cur +:+ s /\
  length (split_from "," 0 cur s) = S (count_char "," s) /\
  Forall (fun piece => count_char "," piece = 0%nat) (split_from "," 0 cur s).
Proof.
  induction s as [| c rest IH]; intros cur Hcur.
  - cbn [split_from str_join length count_char]. repeat split.
    + symmetry. apply app_empty_r.
    + constructor; [exact Hcur | constructor].
  - rewrite split_comma_step. cbn [count_char].
    destruct (Ascii.eqb c ",") eqn:Hc.
    + apply Ascii.eqb_eq in Hc. subst c.
      destruct (IH EmptyString eq_refl) as (Hjoin & Hlen & Hall).
      repeat split.
      * destruct (split_from "," 0 "" rest) as [| y l] eqn:Hsplit;
          [discriminate |].
        change (str_join "," (cur :: y :: l))
          with (cur +:+ "," +:+ str_join "," (y :: l)).
        rewrite Hjoin. reflexivity.
      * cbn [length]. rewrite Hlen. reflexivity.
      * constructor; assumption.
    + destruct (IH (cur +:+ String c EmptyString)) as (Hjoin & Hlen & Hall).
      { rewrite count_char_snoc, Hc, Hcur. reflexivity. }
      rewrite app_snoc in Hjoin. repeat split; assumption.
Qed.

(** X11. [string_to_list] turns a string into a list of strings that,
    joined with commas, give the string back; there is one item more than
    there are commas, so never none, and no item holds a comma. *)
Theorem string_to_list_round_trip (s : string) :
  exists pieces,
    string_to_list (VStr s) = Ok (VList (map VStr pieces)) /\
    str_join "," pieces = s /\
    length pieces = S (count_char "," s) /\
    Forall (fun piece => count_char "," piece = 0%nat) pieces.
Proof.
  exists (str_split "," s). split; [reflexivity |].
  unfold str_split. exact (split_comma_spec s EmptyString eq_refl).
Qed.

Lemma escape_dollars_length (s : string) :
  String.length (escape_dollars s) = (String.length s + count_char "$" s)%nat.
Proof.
  induction s as [| c rest IH]; [reflexivity |].
  cbn [escape_dollars count_char String.length].
  destruct (Ascii.eqb c "$"); cbn [String.length]; rewrite IH; lia.
Qed.

Lemma escape_dollars_plain (s : string) :
  count_char "$" s = 0%nat -> escape_dollars s = s.
Proof.
  induction s as [| c rest IH]; [reflexivity |].
  cbn [escape_dollars count_char].
  destruct (Ascii.eqb c "$"); [discriminate |].
  intros Hrest. rewrite IH by exact Hrest. reflexivity.
Qed.

(** X12. The escaping of lines 210 and 214 turns a command into a
    command one character longer per dollar sign, and leaves a command
    without dollar sign as it is. *)
Theorem escaping_adds_one_per_dollar (s : string) :
  exists escaped,
    escape_run (VStr s) = Ok (VStr escaped) /\
    String.length escaped = (String.length s + count_char "$" s)%nat /\
    (count_char "$" s = 0%nat -> escaped = s).
Proof.
  exists (str_replace "$" "\$" s). split; [reflexivity |].
  rewrite str_replace_dollar. split.
  - apply escape_dollars_length.
  - apply escape_dollars_plain.
Qed.

Lemma escaping_adds_one_per_dollar_sample :
  escape_run (VStr "ls") = Ok (VStr "ls").
Proof.
  destruct (escaping_adds_one_per_dollar "ls") as (escaped & Hrun & _ & Hplain).
  rewrite Hrun, Hplain; reflexivity.
Defined.





(* ===================================================================== *)
(** ** The options the script depends on *)
(* ===================================================================== *)

Ltac in_options := cbn; repeat first [left; reflexivity | right].

Lemma same_script_options_insert (args1 args2 : gmap string value)
    (name : string) (v : value) :
  same_script_options args1 args2 ->
  same_script_options (<[name := v]> args1) (<[name := v]> args2).
Proof.
  intros Hsame opt Hin. rewrite !lookup_insert.
  destruct (decide (name = opt)); [reflexivity | apply Hsame, Hin].
Qed.

Ltac frame_done H :=
  first
    [ right; eexists; split; reflexivity
    | left; do 2 eexists; split; [reflexivity |];
      split; [reflexivity |];
      first [exact H | apply same_script_options_insert; exact H] ].

Lemma validate_frame (w : world) (args1 args2 : gmap string value) :
  same_script_options args1 args2 ->
  (exists b1 b2, validate w args1 = Ok b1 /\ validate w args2 = Ok b2 /\
                 same_script_options b1 b2) \/
  (exists e, validate w args1 = Raise e /\ validate w args2 = Raise e).
Proof.
  intros H. unfold validate, getattr, setattr.
  rewrite (H "host") by in_options.
  destruct (args2 !! "host") as [h |]; cbn [rbind]; [| frame_done H].
  destruct (is_none h); [frame_done H |].
  rewrite (H "username") by in_options.
  destruct (args2 !! "username") as [u |]; cbn [rbind]; [| frame_done H].
  destruct (negb (is_none u)); attr_lookup;
    rewrite (H "tensorboard") by in_options;
    (destruct (args2 !! "tensorboard") as [tb |]; cbn [rbind]; [| frame_done H]);
    (destruct (py_truthy tb); cbn [rbind]; [| frame_done H]);
    attr_lookup; rewrite (H "logdir") by in_options;
    (destruct (args2 !! "logdir") as [ld |]; cbn [rbind]; [| frame_done H]);
    destruct (is_none ld); cbn [rbind]; frame_done H.
Qed.

Lemma prepare_hook_frame (name : string) (args1 args2 : gmap string value) :
  In name script_options ->
  same_script_options args1 args2 ->
  (exists b1 b2, prepare_hook name args1 = Ok b1 /\ prepare_hook name args2 = Ok b2 /\
                 same_script_options b1 b2) \/
  (exists e, prepare_hook name args1 = Raise e /\ prepare_hook name args2 = Raise e).
Proof.
  intros Hin H. unfold prepare_hook, getattr, setattr.
  rewrite (H name Hin).
  destruct (args2 !! name) as [a |]; cbn [rbind]; [| frame_done H].
  destruct (negb (is_none a)); [| frame_done H].
  destruct (hooks_of a); cbn [rbind]; frame_done H.
Qed.

Lemma build_cmd_list_frame (w : world) (args1 args2 : gmap string value)
    (port port_tensorboard : Z) :
  same_script_options args1 args2 ->
  build_cmd_list w args1 port port_tensorboard
    = build_cmd_list w args2 port port_tensorboard.
Proof.
  intros H. unfold build_cmd_list, ssh_cmd_of, getattr.
  rewrite (H "host"), (H "workdir"), (H "runbefore"), (H "mysetup"),
    (H "runafter"), (H "jupyter"), (H "tensorboard"), (H "logdir"),
    (H "compression") by in_options.
  reflexivity.
Qed.

Lemma command_lines_frame (w : world) (args1 args2 : gmap string value) :
  same_script_options args1 args2 ->
  command_lines w args1 = command_lines w args2.
Proof.
  intros H. unfold command_lines, prepare_hooks.
  destruct (validate_frame w args1 args2 H)
    as [(b1 & b2 & -> & -> & Hb) | (e & -> & ->)]; [| reflexivity].
  cbn [rbind].
  destruct (prepare_hook_frame "runbefore" b1 b2 ltac:(in_options) Hb)
    as [(c1 & c2 & -> & -> & Hc) | (e & -> & ->)]; [| reflexivity].
  cbn [rbind].
  destruct (prepare_hook_frame "runafter" c1 c2 ltac:(in_options) Hc)
    as [(d1 & d2 & -> & -> & Hd) | (e & -> & ->)]; [| reflexivity].
  cbn [rbind]. destruct (derive_ports w) as [port port_tensorboard].
  apply build_cmd_list_frame, Hd.
Qed.

(** X14. The script depends on ten options only: two namespaces that
    agree on host, username, workdir, jupyter, mysetup, runbefore,
    runafter, compression, tensorboard and logdir give the same command
    list, the same script and the same execution, error cases included;
    [config], [configfile], [showconfig] and any other key a profile may
    have carried in play no part. *)
Theorem script_reads_ten_options (w : world) (args1 args2 : gmap string value)
    (st : console) :
  same_script_options args1 args2 ->
  command_lines w args1 = command_lines w args2 /\
  build_command w args1 = build_command w args2 /\
  execute w args1 st = execute w args2 st.
Proof.
  intros H. pose proof (command_lines_frame w args1 args2 H) as Hlines.
  assert (Hcmd : build_command w args1 = build_command w args2)
    by (unfold build_command; rewrite Hlines; reflexivity).
  repeat split; try assumption.
  unfold execute. rewrite Hcmd. reflexivity.
Qed.

Lemma script_reads_ten_options_sample :
  command_lines bare_world (namespace_of (cli [("host", "h")]))
    = command_lines bare_world
        (<["showconfig" := VBool true]>
           (<["config" := VStr "a"]> (namespace_of (cli [("host", "h")])))) /\
  build_command bare_world (namespace_of (cli [("host", "h")]))
    = build_command bare_world
        (<["showconfig" := VBool true]>
           (<["config" := VStr "a"]> (namespace_of (cli [("host", "h")])))) /\
  execute bare_world (namespace_of (cli [("host", "h")])) console0
    = execute bare_world
        (<["showconfig" := VBool true]>
           (<["config" := VStr "a"]> (namespace_of (cli [("host", "h")]))))
        console0.
Proof.
  apply (script_reads_ten_options bare_world
           (namespace_of (cli [("host", "h")]))
           (<["showconfig" := VBool true]>
              (<["config" := VStr "a"]> (namespace_of (cli [("host", "h")]))))
           console0).
  intros opt Hin. cbn in Hin.
  repeat (destruct Hin as [<- | Hin]; [vm_compute; reflexivity |]).
  destruct Hin.
Defined.

(* ===================================================================== *)
(** ** Flags and modes *)
(* ===================================================================== *)

(** X15. With [--showconfig] the run is the display of the default file
    whatever else the command line holds: [--configfile], [--config] and
    the other options are not looked at. *)
Theorem showconfig_ignores_other_options (w : world) (dc given : string)
    (supplied : gmap string string) (args : gmap string value) (st : console) :
  parse_args setup_parser supplied = Ok args ->
  supplied !! "showconfig" = Some given ->
  main w dc supplied st = show_config w dc st.
Proof.
  intros Hparse Hflag. unfold main, bind, lift.
  rewrite Hparse, default_args_parse.
  rewrite (parsed_flag supplied args given Hparse Hflag). reflexivity.
Qed.

Lemma showconfig_ignores_other_options_sample :
  main profile_world home_config
    (cli [("showconfig", ""); ("configfile", "/tmp/other.yaml"); ("config", "b")])
    console0
  = show_config profile_world home_config console0.
Proof.
  apply (showconfig_ignores_other_options profile_world home_config ""
           (cli [("showconfig", ""); ("configfile", "/tmp/other.yaml"); ("config", "b")])
           (namespace_of
              (cli [("showconfig", ""); ("configfile", "/tmp/other.yaml");
                    ("config", "b")]))
           console0);
    vm_compute; reflexivity.
Defined.

(** X17. A flag that the profile turns on stays on whatever the command
    line says: given on the command line it is kept, not given it takes
    the profile's value. *)
Theorem profile_flag_cannot_be_turned_off (supplied : gmap string string)
    (args : gmap string value) (profile : list (string * value))
    (flag : string) (v : value) :
  flag = "compression" \/ flag = "tensorboard" ->
  parse_args setup_parser supplied = Ok args ->
  dict_get profile flag = Some v ->
  py_truthy v = true ->
  exists merged on,
    overlay (VDict profile) (namespace_of ∅) args = Ok merged /\
    merged !! flag = Some on /\ py_truthy on = true.
Proof.
  intros Hflag Hparse Hv Hon.
  destruct (overlay_dict profile (namespace_of ∅) args) as (merged & Hoverlay & Hmerged).
  { intros opt.
    exact (parsed_attribute_has_default supplied args (namespace_of ∅) opt
             Hparse default_args_parse). }
  exists merged.
  pose proof (parse_args_lookup _ _ _ Hparse flag) as Hlook.
  assert (Hdefault : namespace_of ∅ !! flag = Some (VBool false))
    by (destruct Hflag as [-> | ->]; vm_compute; reflexivity).
  assert (Hmine : args !! flag = Some (VBool true) \/ args !! flag = Some (VBool false)).
  { destruct Hflag as [-> | ->]; cbn in Hlook;
      destruct Hlook as (x & Hx & Hattr);
      match type of Hx with
      | parse_one _ ?g = _ => destruct g; cbn in Hx; injection Hx as <-; auto
      end. }
  rewrite Hmerged. unfold overlaid. rewrite Hv, Hdefault.
  destruct Hmine as [-> | ->]; cbn; eauto.
Qed.

Lemma profile_flag_cannot_be_turned_off_sample :
  exists merged on,
    overlay (VDict [("tensorboard", VBool true)]) (namespace_of ∅)
      (namespace_of (cli [("host", "h")])) = Ok merged /\
    merged !! "tensorboard" = Some on /\ py_truthy on = true.
Proof.
  apply (profile_flag_cannot_be_turned_off (cli [("host", "h")])
           (namespace_of (cli [("host", "h")]))
           [("tensorboard", VBool true)] "tensorboard" (VBool true));
    [right; reflexivity | vm_compute; reflexivity | reflexivity | reflexivity].
Defined.

(** X18. With [STACKYTERCONFIG] unset, no [--configfile] and something at
    the default path, [get_config] reads that path, with the requested
    profile or with none. *)
Theorem default_file_is_picked_up (w : world) (dc : string) (entry : fs_entry)
    (name : value) (st : console) :
  getenv w "STACKYTERCONFIG" = None ->
  fs w dc = Some entry ->
  get_config w dc name VNone st = read_config w (VStr dc) name st.
Proof.
  intros Henv Hthere. unfold get_config, bind. cbn [is_none].
  rewrite (get_default_config_default w dc st Henv), Hthere.
  cbn [is_none negb].
  destruct name; reflexivity.
Qed.

Lemma default_file_is_picked_up_sample :
  get_config profile_world home_config (VStr "b") VNone console0
    = read_config profile_world (VStr home_config) (VStr "b") console0.
Proof.
  apply (default_file_is_picked_up profile_world home_config
           (RegularFile "profiles") (VStr "b") console0); reflexivity.
Defined.
